(** * awesome-cluster: master/worker connection balancer

    A shallow embedding of [awesome-cluster.js]: the address hash, the
    balancer, the worker supervisor (spawn, respawn, fork with debug-port
    rewriting) and the worker-side message handler, with the properties
    the specification states about them. *)

From Stdlib Require Import ZArith Lia Ascii String DecimalString.
From Stdlib Require Import DecimalZ DecimalPos.
From stdpp Require Import base numbers list strings gmap.

Local Open Scope Z_scope.

(** ** JavaScript number operators

    Every number the program handles is an integer of magnitude below
    2^34, so the IEEE doubles of the implementation are exact and [Z]
    models them; the 32-bit conversions of the bitwise operators are
    written out. *)
Module JS.

(** ToInt32: wrap into [-2^31, 2^31). *)
Definition ToInt32 (x : Z) : Z := (x + 2 ^ 31) mod 2 ^ 32 - 2 ^ 31.

(** ToUint32: wrap into [0, 2^32). *)
Definition ToUint32 (x : Z) : Z := x mod 2 ^ 32.

(** [a << n] *)
Definition shl (a n : Z) : Z :=
  ToInt32 (Z.shiftl (ToInt32 a) (Z.land (ToUint32 n) 31)).

(** [a >> n]: sign-propagating. *)
Definition sar (a n : Z) : Z :=
  Z.shiftr (ToInt32 a) (Z.land (ToUint32 n) 31).

(** [a >>> n]: zero-filling. *)
Definition shr (a n : Z) : Z :=
  Z.shiftr (ToUint32 a) (Z.land (ToUint32 n) 31).

(** [a ^ b] *)
Definition xor (a b : Z) : Z := ToInt32 (Z.lxor (ToInt32 a) (ToInt32 b)).

(** [a | b] *)
Definition or (a b : Z) : Z := ToInt32 (Z.lor (ToInt32 a) (ToInt32 b)).

(** [a % m] on integers: the sign follows the dividend. *)
Definition rem (a m : Z) : Z := Z.rem a m.

(** The signed 32-bit range. *)
Definition int32 (x : Z) : Prop := - 2 ^ 31 <= x < 2 ^ 31.

End JS.

(** ** The address hash *)
Module Hash.

(** [Buffer] contents: [ip[i]] is a number in 0..255. *)
Definition num_of (b : Byte.byte) : Z := Z.of_N (Byte.to_N b).

(** The body of the [for] loop of [hash]. *)
Definition mix (hash : Z) (b : Byte.byte) : Z :=
  let num := num_of b in
  let hash := hash + num in
  let hash := JS.rem hash 2147483648 in
  let hash := hash + JS.shl hash 10 in
  let hash := JS.rem hash 2147483648 in
  JS.xor hash (JS.sar hash 6).

(** The statements after the loop, up to the [return]. *)
Definition finish (hash : Z) : Z :=
  let hash := hash + JS.shl hash 3 in
  let hash := JS.rem hash 2147483648 in
  let hash := JS.xor hash (JS.sar hash 11) in
  let hash := hash + JS.shl hash 15 in
  JS.rem hash 2147483648.

(** [hash(ip)], with [this.seed] as a parameter. *)
Definition hash (seed : Z) (ip : list Byte.byte) : Z :=
  JS.shr (finish (fold_left mix ip seed)) 0.

(** [this.seed = (Math.random() * 0xffffffff) | 0], where [r] is the
    integer part of the product, [0 <= r < 0xffffffff]. *)
Definition seed_of (r : Z) : Z := JS.or r 0.

(** The mixer as the specification words it: logical shifts, additions
    reduced modulo 2^31, the result read as an unsigned 32-bit value. *)
Definition spec_step (h : Z) (b : Byte.byte) : Z :=
  let h := (h + num_of b) mod 2 ^ 31 in
  let h := (h + Z.shiftl h 10) mod 2 ^ 31 in
  Z.lxor h (Z.shiftr h 6).

Definition spec_mixer (seed : Z) (ip : list Byte.byte) : Z :=
  let h := fold_left spec_step ip seed in
  let h := (h + Z.shiftl h 3) mod 2 ^ 31 in
  let h := Z.lxor h (Z.shiftr h 11) in
  let h := (h + Z.shiftl h 15) mod 2 ^ 31 in
  h mod 2 ^ 32.

(** The mixer in integer arithmetic with the signs the operators of
    the code give: a left shift wraps to a signed 32-bit value, the
    remainder follows the sign of the dividend, a right shift
    propagates the sign. *)
Definition signed_step (h : Z) (b : Byte.byte) : Z :=
  let h := Z.rem (h + num_of b) (2 ^ 31) in
  let h := Z.rem (h + JS.ToInt32 (h * 2 ^ 10)) (2 ^ 31) in
  Z.lxor h (Z.shiftr h 6).

Definition signed_finish (h : Z) : Z :=
  let h := Z.rem (h + JS.ToInt32 (h * 2 ^ 3)) (2 ^ 31) in
  let h := Z.lxor h (Z.shiftr h 11) in
  Z.rem (h + JS.ToInt32 (h * 2 ^ 15)) (2 ^ 31).

Definition signed_mixer (seed : Z) (ip : list Byte.byte) : Z :=
  signed_finish (fold_left signed_step ip seed) mod 2 ^ 32.

End Hash.

(** ** Values shared by the master and the workers *)

(** An accepted TCP socket.  [server] is the owning server the worker
    attaches ([socket.server = server]); [None] is [undefined]. *)
Record socket := Socket {
  fd : nat;
  remoteAddress : option string;
  server : option nat
}.

(** IPC message bodies: a string, an object with its fields, or
    [null]/[undefined]. *)
Inductive jsmsg :=
| JStr (s : string)
| JObj (fields : list (string * string))
| JNull.

(** Thrown values. *)
Inductive error :=
| TypeError (message : string)
| Error (message : string)
| RangeError (message : string).

#[global] Instance socket_eq_dec : EqDecision socket.
Proof. solve_decision. Defined.
#[global] Instance jsmsg_eq_dec : EqDecision jsmsg.
Proof. solve_decision. Defined.
#[global] Instance error_eq_dec : EqDecision error.
Proof. solve_decision. Defined.

(** [`${n}`] for an integer. *)
Definition show (n : Z) : string := NilZero.string_of_int (Z.to_int n).

(** [s.includes(needle)] *)
Fixpoint includes (needle s : string) : bool :=
  String.prefix needle s ||
  match s with
  | EmptyString => false
  | String _ s' => includes needle s'
  end.

(** ** The worker runtime *)
Module Worker.

(** The transport's server, as far as the handler touches it. *)
Record server := Server {
  srv_id : nat;
  _connections : Z;
  emitted : list (string * socket)
}.

(** The listener of [process.on('message', (msg, socket) => ...)] in
    [startWorker]: the server and the socket as the call leaves them.
    An absent socket ([None]) is the falsy case of [!socket]. *)
Definition on_message (msg : jsmsg) (sock : option socket) (srv : server)
  : server * option socket :=
  match sock with
  | Some s =>
      if decide (msg <> JStr "balancing") then (srv, sock)
      else
        (* server._connections++ *)
        let srv := Server (srv_id srv) (_connections srv + 1) (emitted srv) in
        (* socket.server = server *)
        let s := Socket (fd s) (remoteAddress s) (Some (srv_id srv)) in
        (* server.emit('connection', socket) *)
        (Server (srv_id srv) (_connections srv)
                (emitted srv ++ [("connection"%string, s)]),
         Some s)
  | None => (srv, sock)
  end.

End Worker.

(** ** The master: state, effects *)
Module Master.

(** An element of [this.workers]: a [ChildProcess] handle, or
    [undefined].  A handle is the key of the child in the store. *)
Inductive slot :=
| Undefined
| Handle (w : nat).

#[global] Instance slot_eq_dec : EqDecision slot.
Proof. solve_decision. Defined.

(** A [ChildProcess] object as the master sees it.  [connected] is
    [worker.connected]; [channel_ok] tells whether [worker.send]
    returns rather than throws. *)
Record child := Child {
  execArgv : list string;
  child_env : gmap string string;
  connected : bool;
  channel_ok : bool
}.

(** What the master does to the outside. *)
Inductive event :=
| Send (worker : nat) (msg : string) (sock : socket)
| LogError (e : error)
| SocketEmit (sock : socket) (name : string)
| SocketEnd (sock : socket)
| Listen (port : Z).

#[global] Instance event_eq_dec : EqDecision event.
Proof. solve_decision. Defined.

Record master := Master {
  (* module-level variables *)
  debugPortOffset : Z;
  processUniqueId : nat;
  (* the master process *)
  process_execArgv : list string;
  process_debugPort : Z;
  process_env : gmap string string;
  (* fields of the AwesomeCluster instance *)
  isPermanentConnection : bool;
  workerCount : nat;
  needRespawn : bool;
  env : gmap string string;
  seed : Z;
  workers : list slot;
  (* ChildProcess objects, by handle *)
  children : gmap nat child;
  (* effects so far, oldest first *)
  trace : list event
}.

Definition maxPort : Z := 65535.

Definition set_debugPortOffset (v : Z) (m : master) : master :=
  Master v (processUniqueId m) (process_execArgv m) (process_debugPort m)
         (process_env m) (isPermanentConnection m) (workerCount m)
         (needRespawn m) (env m) (seed m) (workers m) (children m) (trace m).

Definition set_processUniqueId (v : nat) (m : master) : master :=
  Master (debugPortOffset m) v (process_execArgv m) (process_debugPort m)
         (process_env m) (isPermanentConnection m) (workerCount m)
         (needRespawn m) (env m) (seed m) (workers m) (children m) (trace m).

Definition set_seed (v : Z) (m : master) : master :=
  Master (debugPortOffset m) (processUniqueId m) (process_execArgv m)
         (process_debugPort m) (process_env m) (isPermanentConnection m)
         (workerCount m) (needRespawn m) (env m) v (workers m) (children m)
         (trace m).

Definition set_workers (v : list slot) (m : master) : master :=
  Master (debugPortOffset m) (processUniqueId m) (process_execArgv m)
         (process_debugPort m) (process_env m) (isPermanentConnection m)
         (workerCount m) (needRespawn m) (env m) (seed m) v (children m)
         (trace m).

Definition set_children (v : gmap nat child) (m : master) : master :=
  Master (debugPortOffset m) (processUniqueId m) (process_execArgv m)
         (process_debugPort m) (process_env m) (isPermanentConnection m)
         (workerCount m) (needRespawn m) (env m) (seed m) (workers m) v
         (trace m).

Definition set_trace (v : list event) (m : master) : master :=
  Master (debugPortOffset m) (processUniqueId m) (process_execArgv m)
         (process_debugPort m) (process_env m) (isPermanentConnection m)
         (workerCount m) (needRespawn m) (env m) (seed m) (workers m)
         (children m) v.

(** *** State and exceptions

    A computation runs on the master's state and either returns or
    throws; what it did to the state before throwing stays done. *)
Definition M (A : Type) : Type := master -> (error + A) * master.

Definition ret {A} (a : A) : M A := fun m => (inr a, m).

Definition bind {A B} (c : M A) (k : A -> M B) : M B :=
  fun m =>
    match c m with
    | (inl e, m') => (inl e, m')
    | (inr a, m') => k a m'
    end.

Definition throw {A} (e : error) : M A := fun m => (inl e, m).

(** [try { body } catch (e) { handler(e) }] *)
Definition try_catch {A} (body : M A) (handler : error -> M A) : M A :=
  fun m =>
    match body m with
    | (inl e, m') => handler e m'
    | (inr a, m') => (inr a, m')
    end.

Definition get : M master := fun m => (inr m, m).
Definition modify (f : master -> master) : M unit := fun m => (inr tt, f m).
Definition emit (e : event) : M unit :=
  modify (fun m => set_trace (trace m ++ [e]) m).

Declare Scope cluster_scope.
Delimit Scope cluster_scope with cluster.
Notation "'let*' x ':=' c 'in' k" := (bind c (fun x => k))
  (at level 10, x name, c at level 100, k at level 200) : cluster_scope.
Notation "c ;; k" := (bind c (fun _ => k))
  (at level 100, k at level 200, right associativity) : cluster_scope.
Local Open Scope cluster_scope.

(** [n] times [body], each awaited before the next. *)
Fixpoint repeat_M (n : nat) (body : M unit) : M unit :=
  match n with
  | O => ret tt
  | S n => body ;; repeat_M n body
  end.

(** *** Strings of the fork *)

(** [/--inspect(?:-brk|-port)?|--debug-port/] tried at the start of [s]:
    the first alternative with its optional group taken or left out,
    then the second alternative. *)
Definition inspectRegex_here (s : string) : bool :=
  String.prefix "--inspect-brk" s || String.prefix "--inspect-port" s
  || String.prefix "--inspect" s || String.prefix "--debug-port" s.

(** [arg.match(inspectRegex)] is truthy: the pattern is not anchored,
    so it is tried at every position. *)
Fixpoint inspectRegex_match (s : string) : bool :=
  inspectRegex_here s ||
  match s with
  | EmptyString => false
  | String _ s' => inspectRegex_match s'
  end.

(** The loop
    [for (let i = 0; i < execArgv.length; i++)
       if (execArgv[i].includes('--inspect-brk')) execArgv.splice(i, 1);]
    from index [i] on.  One unit of [fuel] per test of the loop
    condition that succeeds; [length execArgv] units are enough. *)
Fixpoint splice_loop (fuel i : nat) (execArgv : list string) : list string :=
  match fuel with
  | O => execArgv
  | S fuel =>
      match execArgv !! i with
      | None => execArgv
      | Some arg =>
          if includes "--inspect-brk" arg
          then splice_loop fuel (S i) (delete i execArgv)
          else splice_loop fuel (S i) execArgv
      end
  end.

Definition splice_inspect_brk (execArgv : list string) : list string :=
  splice_loop (length execArgv) 0 execArgv.

(** What the loop amounts to on the list: an argument that follows a
    removed one moves into the index just tested and is passed over. *)
Fixpoint splice_skip (execArgv : list string) : list string :=
  match execArgv with
  | [] => []
  | arg :: rest =>
      if includes "--inspect-brk" arg then
        match rest with
        | [] => []
        | next :: rest' => next :: splice_skip rest'
        end
      else arg :: splice_skip rest
  end.

(** [let inspectPort = process.debugPort + debugPortOffset;
     if (inspectPort > maxPort) inspectPort -= 1;] *)
Definition inspectPort_of (debugPort offset : Z) : Z :=
  let inspectPort := debugPort + offset in
  if inspectPort >? maxPort then inspectPort - 1 else inspectPort.

(** The [execArgv] that [fork] gives the child. *)
Definition child_execArgv (m : master) : list string :=
  if existsb inspectRegex_match (process_execArgv m) then
    splice_inspect_brk (process_execArgv m)
    ++ [("--inspect-brk="
         +:+ show (inspectPort_of (process_debugPort m) (debugPortOffset m)))%string]
  else process_execArgv m.

(** *** The supervisor *)

(** [ch.fork(process.argv[1], [], {execArgv, env})]: a new
    [ChildProcess] with an open channel, stored under the unique id it
    was forked with. *)
Definition ch_fork (execArgv : list string) (workerEnv : gmap string string)
  : M nat :=
  let* m := get in
  let w := processUniqueId m in
  modify (set_children (<[w := Child execArgv workerEnv true true]> (children m))) ;;
  ret w.

(** [fork(env)] *)
Definition fork (env : gmap string string) : M nat :=
  let* m := get in
  let workerEnv := process_env m in
  let execArgv := process_execArgv m in
  let workerEnv := env ∪ workerEnv in
  modify (set_processUniqueId (S (processUniqueId m))) ;;
  let workerEnv :=
    <["NODE_UNIQUE_ID"%string := show (Z.of_nat (S (processUniqueId m)))]>
      workerEnv in
  let* execArgv :=
    (if existsb inspectRegex_match execArgv then
       let inspectPort :=
         inspectPort_of (process_debugPort m) (debugPortOffset m) in
       modify (set_debugPortOffset (debugPortOffset m + 1)) ;;
       let execArgv := splice_inspect_brk execArgv in
       ret (execArgv ++ [("--inspect-brk=" +:+ show inspectPort)%string])
     else ret execArgv) in
  ch_fork execArgv workerEnv.

(** [spawnWorker()]: the listeners it installs are [on_exit],
    [on_message] and [on_error] below. *)
Definition spawnWorker : M unit :=
  let* m := get in
  let* worker := fork (env m) in
  modify (fun m => set_workers (workers m ++ [Handle worker]) m).

(** [this.workers.indexOf(worker)], [-1] when absent. *)
Fixpoint indexOf (ws : list slot) (worker : slot) : Z :=
  match ws with
  | [] => -1
  | x :: ws =>
      if decide (x = worker) then 0
      else let i := indexOf ws worker in if i =? -1 then -1 else i + 1
  end.

(** [respawn(worker)] *)
Definition respawn (worker : nat) : M unit :=
  let* m := get in
  let index := indexOf (workers m) (Handle worker) in
  (if negb (index =? -1)
   then modify (set_workers (delete (Z.to_nat index) (workers m)))
   else ret tt) ;;
  spawnWorker.

(** [msg.type] of a string or an object; [None] is [undefined]. *)
Definition msg_type (msg : jsmsg) : option string :=
  match msg with
  | JStr _ => None
  | JObj fields =>
      snd <$> (snd <$> list_find (fun kv => fst kv = "type"%string) fields)
  | JNull => None
  end.

(** Reading [msg.type]: on [null] or [undefined] it throws. *)
Definition read_type (msg : jsmsg) : M (option string) :=
  match msg with
  | JNull => throw (TypeError "Cannot read properties of null (reading 'type')")
  | _ => ret (msg_type msg)
  end.

(** [worker.on('exit', async (code) => ...)] *)
Definition on_exit (worker : nat) (code : Z) : M unit :=
  let* m := get in
  if needRespawn m then respawn worker else ret tt.

(** [worker.on('message', async (msg) => ...)]; nothing in the
    listener catches what reading [msg.type] throws. *)
Definition on_message (worker : nat) (msg : jsmsg) : M unit :=
  let* type := read_type msg in
  let* m := get in
  if decide (type = Some "close"%string) then
    if needRespawn m then respawn worker else ret tt
  else ret tt.

(** [worker.on('error', (err) => ...)] *)
Definition on_error (worker : nat) (err : error) : M unit :=
  emit (LogError (Error "Error on worker: ")).

(** The runtime's part of a child's death: the channel of an exited
    child is closed, so its handle reports [connected = false] from
    then on; the ['exit'] listener runs after that. *)
Definition disconnect (worker : nat) : M unit :=
  modify (fun m =>
    set_children
      (alter (fun c => Child (execArgv c) (child_env c) false false)
             worker (children m)) m).

Definition exit_event (worker : nat) (code : Z) : M unit :=
  disconnect worker ;; on_exit worker code.

(** The ports [net.Server.listen] accepts. *)
Definition valid_port (port : Z) : bool := (0 <=? port) && (port <? 65536).

(** [this.listen(port)] of [net.Server]: a port outside 0..65535 is
    refused by the call itself, which throws a RangeError (the string
    is the code of the error); otherwise the bind is under way when
    the call returns, and the ['listening'] event follows once it has
    succeeded.  A bind that fails later, as on an address in use, is
    reported by an event and ['listening'] never comes. *)
Definition listen (port : Z) : M unit :=
  if valid_port port then emit (Listen port)
  else throw (RangeError "ERR_SOCKET_BAD_PORT").

(** [startCluster()], from [this.workers = []] on, with [this.port] as
    a parameter; [r] is the integer part of
    [Math.random() * 0xffffffff].  The call registers the callback
    below and returns: it forks nothing itself. *)
Definition startCluster (r port : Z) : M unit :=
  modify (set_workers []) ;;
  modify (set_seed (Hash.seed_of r)) ;;
  listen port.

(** The callback of [this.once('listening', ...)]: the spawn loop. *)
Definition on_listening : M unit :=
  let* m := get in
  repeat_M (workerCount m) spawnWorker.

(** *** The balancer *)

(** [Buffer.from(socket.remoteAddress || '127.0.0.1')]: an absent or
    empty address is falsy. *)
Definition addr_of (sock : socket) : list Byte.byte :=
  list_byte_of_string
    match remoteAddress sock with
    | None => "127.0.0.1"
    | Some EmptyString => "127.0.0.1"
    | Some a => a
    end.

(** [this.workers[hash % this.workers.length]]: the remainder by zero
    is [NaN], and no element has that index. *)
Definition worker_at (ws : list slot) (hash : Z) : slot :=
  if decide (length ws = 0%nat) then Undefined
  else default Undefined (ws !! Z.to_nat (JS.rem hash (Z.of_nat (length ws)))).

(** [this.workers.shift()] *)
Definition workers_shift : M slot :=
  let* m := get in
  match workers m with
  | [] => ret Undefined
  | w :: ws => modify (set_workers ws) ;; ret w
  end.

(** [this.workers.push(worker)] *)
Definition workers_push (worker : slot) : M unit :=
  modify (fun m => set_workers (workers m ++ [worker]) m).

(** The choice of the worker, the first half of [balance]. *)
Definition select (sock : socket) : M slot :=
  let addr := addr_of sock in
  let* m := get in
  if isPermanentConnection m then
    let hash := Hash.hash (seed m) addr in
    ret (worker_at (workers m) hash)
  else
    let* worker := workers_shift in
    workers_push worker ;;
    ret worker.

(** [worker.connected]; reading a property of [undefined] throws. *)
Definition get_connected (worker : slot) : M bool :=
  match worker with
  | Undefined =>
      throw (TypeError "Cannot read properties of undefined (reading 'connected')")
  | Handle w =>
      let* m := get in
      ret (from_option connected false (children m !! w))
  end.

(** [worker.send('balancing', socket)] *)
Definition worker_send (worker : slot) (msg : string) (sock : socket) : M unit :=
  match worker with
  | Undefined => throw (TypeError "Cannot read properties of undefined (reading 'send')")
  | Handle w =>
      let* m := get in
      if from_option channel_ok false (children m !! w)
      then emit (Send w msg sock)
      else throw (Error "Channel closed")
  end.

(** [balance(socket)] *)
Definition balance (sock : socket) : M unit :=
  let* worker := select sock in
  try_catch
    (let* c := get_connected worker in
     if c then worker_send worker "balancing" sock
     else throw (Error "Can't send message to worker"))
    (fun e =>
       emit (LogError e) ;;
       emit (SocketEmit sock "close") ;;
       emit (SocketEnd sock)).

(** A worker that takes the socket: a handle whose channel reports
    connected and whose [send] returns. *)
Definition live (m : master) (worker : slot) : bool :=
  match worker with
  | Undefined => false
  | Handle w =>
      from_option (fun c => connected c && channel_ok c) false
                  (children m !! w)
  end.

(** The connections of [socks], accepted one after the other. *)
Fixpoint serve (socks : list socket) : M unit :=
  match socks with
  | [] => ret tt
  | sock :: socks => balance sock ;; serve socks
  end.

End Master.

(** ** Scenarios *)
Module Scenario.

Import Master.

(** A master about to start: offset 1 and unique id 0 as the module
    initialises them, nothing inherited or overlaid in the
    environment. *)
Definition initial (execArgv : list string) (debugPort : Z)
    (permanent respawn : bool) (count : nat) : master :=
  Master 1 0 execArgv debugPort ∅ permanent count respawn ∅ 0 [] ∅ [].

(** The master once the ['listening'] callback has spawned its
    workers, with seed 5; the trace starts here. *)
Definition started (execArgv : list string) (debugPort : Z)
    (permanent respawn : bool) (count : nat) : master :=
  snd (on_listening
         (set_seed (Hash.seed_of 5)
            (initial execArgv debugPort permanent respawn count))).

(** The example program: two workers, [respawn: false], a transport
    with [isPermanentConnection] false. *)
Definition example : master := started [] 9229 false false 2.

Definition client (n : nat) (address : string) : socket :=
  Socket n (Some address) None.

End Scenario.

(** ** Events of the master's loop *)
Module Loop.

Import Master.
Local Open Scope cluster_scope.

(** What the event loop of the master can deliver: the ['listening']
    event of its own server, an accepted connection, or one of the
    three events [spawnWorker] listens to on a child. *)
Inductive input :=
| Listening
| Connection (sock : socket)
| ChildExit (worker : nat) (code : Z)
| ChildMessage (worker : nat) (msg : jsmsg)
| ChildError (worker : nat) (err : error).

(** The listener that runs for an input. *)
Definition dispatch (i : input) : M unit :=
  match i with
  | Listening => on_listening
  | Connection sock => balance sock
  | ChildExit worker code => exit_event worker code
  | ChildMessage worker msg => on_message worker msg
  | ChildError worker err => on_error worker err
  end.

(** The inputs whose listener throws: a child's message that is
    [null] or [undefined]. *)
Definition null_message (i : input) : bool :=
  match i with
  | ChildMessage _ JNull => true
  | _ => false
  end.

(** The inputs in the order they arrive, one listener at a time; an
    exception that escapes a listener ends the run, as it ends the
    master.  ['listening'] is subscribed with [once], so a real run
    delivers it at most one time; [run] accepts any sequence. *)
Fixpoint run (inputs : list input) : M unit :=
  match inputs with
  | [] => ret tt
  | i :: inputs => dispatch i ;; run inputs
  end.

(** The sockets a stretch of the trace disposes of: those sent to a
    worker and those ended, in the order of the events. *)
Definition settled (evs : list event) : list socket :=
  omap (fun e => match e with
                 | Send _ _ sock => Some sock
                 | SocketEnd sock => Some sock
                 | _ => None
                 end) evs.

(** The routing list names no child twice and only children the store
    holds, and the store holds only children forked so far. *)
Definition consistent (m : master) : Prop :=
  NoDup (workers m)
  /\ (forall w, Handle w ∈ workers m -> is_Some (children m !! w))
  /\ (forall w, is_Some (children m !! w) ->
                (1 <= w <= processUniqueId m)%nat).

End Loop.

(** ** Transports *)
Module Transport.

(** What the cluster reads of a transport. *)
Record t := Make {
  port : Z;
  isPermanentConnection : bool
}.

(** [this.port = options.port || 3000]: an absent port and port 0 are
    both falsy. *)
Definition port_of (options_port : option Z) : Z :=
  match options_port with
  | None => 3000
  | Some p => if p =? 0 then 3000 else p
  end.

(** [new HttpTransport(options)]; [get isPermanentConnection()] returns
    false. *)
Definition HttpTransport (options_port : option Z) : t :=
  Make (port_of options_port) false.

(** [new WsTransport(options)]; its getter returns false as well. *)
Definition WsTransport (options_port : option Z) : t :=
  Make (port_of options_port) false.

End Transport.

(** ** The instance, the process and [start] *)
Module Cluster.

(** [options.cluster] *)
Record cluster_options := ClusterOptions {
  workers : option nat;
  respawn : option bool
}.

(** The argument of the constructor. *)
Record options := Options {
  transport : Transport.t;
  cluster : option cluster_options;
  env : option (gmap string string)
}.

(** The fields the constructor sets; those it sets only in cluster mode
    are [None] ([undefined]) otherwise. *)
Record instance := Instance {
  this_transport : Transport.t;
  isClusterMode : bool;
  workerCount : option nat;
  port : option Z;
  needRespawn : option bool;
  this_env : gmap string string
}.

(** [constructor(options)]; [cpus] is [os.cpus().length]. *)
Definition constructor (opts : options) (cpus : nat) : instance :=
  match cluster opts with
  | Some c =>
      Instance (transport opts) true
        (* options.cluster.workers || os.cpus().length *)
        (Some match workers c with
              | None => cpus
              | Some O => cpus
              | Some n => n
              end)
        (Some (Transport.port (transport opts)))
        (* typeof respawn !== 'undefined' ? respawn : true *)
        (Some match respawn c with
              | None => true
              | Some r => r
              end)
        (default ∅ (env opts))
  | None =>
      Instance (transport opts) false None None None (default ∅ (env opts))
  end.

(** The process the instance runs in. *)
Record process := Process {
  pid : Z;
  process_env : gmap string string;
  execArgv : list string;
  debugPort : Z
}.

(** [!!process.env.CLUSTER_MASTER_PID]: an unset variable and an empty
    one are falsy. *)
Definition has_master_pid (e : gmap string string) : bool :=
  match e !! "CLUSTER_MASTER_PID"%string with
  | Some (String _ _) => true
  | _ => false
  end.

(** [get isMaster()]: the value returned and the process afterwards;
    [process.env.CLUSTER_MASTER_PID = this.pid] stores the pid as a
    string. *)
Definition isMaster (p : process) : bool * process :=
  let _isWorker := has_master_pid (process_env p) in
  let _isMaster := negb _isWorker in
  if _isMaster then
    (true,
     Process (pid p)
             (<["CLUSTER_MASTER_PID"%string := show (pid p)]> (process_env p))
             (execArgv p) (debugPort p))
  else (false, p).

(** What a worker process does to the outside. *)
Inductive effect :=
| ProcessSend (msg : jsmsg)
| ConsoleError (text : string)
| ProcessExit (code : Z)
| OldClose.

(** A worker process: the transport's server with what [startWorker]
    and [startTransport] change of it.  [listen_error] is what the
    server's own [listen] throws in this process, if anything. *)
Record worker := Worker {
  w_server : Worker.server;
  listen_error : option string;
  listen_faked : bool;
  close_wrapped : bool;
  subscribed : bool;
  listening : option Z;
  effects : list effect
}.

Definition fresh_worker (listen_error : option string) : worker :=
  Worker (Worker.Server 0 0 []) listen_error false false false None [].

(** [startWorker()]: outside cluster mode it returns before it wraps
    [close] or subscribes to messages. *)
Definition startWorker (this : instance) (w : worker) : worker :=
  if isClusterMode this then
    Worker (w_server w) (listen_error w) (listen_faked w) true true
           (listening w) (effects w)
  else w.

(** [server.listen(port)] *)
Definition server_listen (port : Z) (w : worker) : string + worker :=
  if listen_faked w then inr w
  else
    match listen_error w with
    | Some message => inl message
    | None =>
        inr (Worker (w_server w) (listen_error w) (listen_faked w)
                    (close_wrapped w) (subscribed w) (Some port) (effects w))
    end.

(** [transport.start()] of the shipped transports:
    [this.server.listen(this.port)]. *)
Definition transport_start (tr : Transport.t) (w : worker) : string + worker :=
  server_listen (Transport.port tr) w.

(** [startTransport()]; [process.exit(1)] ends the process. *)
Definition startTransport (this : instance) (w : worker) : worker :=
  let w :=
    if isClusterMode this then
      Worker (w_server w) (listen_error w) true (close_wrapped w)
             (subscribed w) (listening w) (effects w)
    else w in
  match transport_start (this_transport this) w with
  | inr w => w
  | inl message =>
      Worker (w_server w) (listen_error w) (listen_faked w) (close_wrapped w)
             (subscribed w) (listening w)
             (effects w ++ [ConsoleError ("Failed to start transport: " +:+ message);
                            ProcessExit 1])
  end.

(** [server.close()] in the worker: the wrapper of [startWorker] tells
    the master first, then the original runs. *)
Definition server_close (w : worker) : worker :=
  Worker (w_server w) (listen_error w) (listen_faked w) (close_wrapped w)
         (subscribed w) None
         (effects w
          ++ (if close_wrapped w
              then [ProcessSend (JObj [("type", "close")%string])] else [])
          ++ [OldClose]).

(** An IPC message reaches the worker process: the listener of
    [startWorker] runs if it was installed. *)
Definition receive (msg : jsmsg) (sock : option socket) (w : worker) : worker :=
  if subscribed w then
    Worker (fst (Worker.on_message msg sock (w_server w))) (listen_error w)
           (listen_faked w) (close_wrapped w) (subscribed w) (listening w)
           (effects w)
  else w.

(** The master's state when [startCluster] begins: the module's
    counters at their initial values, the fields of the instance, the
    process's arguments, debug port and environment. *)
Definition master_of (this : instance) (p : process) : Master.master :=
  Master.Master 1 0 (execArgv p) (debugPort p) (process_env p)
    (Transport.isPermanentConnection (this_transport this))
    (default 0%nat (workerCount this))
    (default true (needRespawn this))
    (this_env this) 0 [] ∅ [].

(** What [start()] leaves: a master that has called [listen] and
    waits for ['listening'] (its routing list still empty), a worker
    with its transport started, or, when the master's [listen] throws,
    the rejection of the promise: nothing in [start] or [startCluster]
    catches it. *)
Inductive started :=
| AsMaster (p : process) (m : Master.master)
| AsWorker (p : process) (w : worker)
| Rejected (p : process) (e : error).

(** [start()]; [r] feeds the seed, [listen_error] the worker's server.
    The master listens on [this.port], which the constructor sets in
    cluster mode; [listen(undefined)] would take any free port, as
    port 0 does. *)
Definition start (this : instance) (p : process) (r : Z)
    (listen_error : option string) : started :=
  if isClusterMode this then
    let '(master, p) := isMaster p in
    if master then
      match Master.startCluster r (default 0 (port this))
                                (master_of this p) with
      | (inr _, m) => AsMaster p m
      | (inl e, _) => Rejected p e
      end
    else
      AsWorker p (startTransport this (startWorker this (fresh_worker listen_error)))
  else
    AsWorker p (startTransport this (startWorker this (fresh_worker listen_error))).

End Cluster.

(** ** The example program *)
Module Demo.

Import Cluster.

(** [new HttpTransport({port: 8080})] with
    [cluster: {workers: 2, respawn: false}]. *)
Definition options : Cluster.options :=
  Options (Transport.HttpTransport (Some 8080))
          (Some (ClusterOptions (Some 2%nat) (Some false))) None.

(** [new AwesomeCluster(clusterOptions)] on a host with four CPUs. *)
Definition cluster : instance := constructor options 4.

(** The same transport without the [cluster] option. *)
Definition single : instance :=
  constructor (Options (Transport.HttpTransport (Some 8080)) None None) 4.

(** A process started from a shell: no role marker in its
    environment. *)
Definition shell : process := Process 4242 ∅ [] 9229.

End Demo.

(** * Properties *)

(** ** The 32-bit conversions *)
Section Int32.

Import JS.

Lemma ToInt32_range x : int32 (JS.ToInt32 x).
Proof.
  unfold int32, JS.ToInt32.
  pose proof (Z.mod_pos_bound (x + 2 ^ 31) (2 ^ 32)). lia.
Qed.

Lemma ToInt32_small x : int32 x -> JS.ToInt32 x = x.
Proof.
  unfold int32, JS.ToInt32. intros Hx.
  rewrite Z.mod_small by lia. lia.
Qed.

Lemma ToInt32_idem x : JS.ToInt32 (JS.ToInt32 x) = JS.ToInt32 x.
Proof. apply ToInt32_small, ToInt32_range. Qed.

Lemma rem_range a : - 2 ^ 31 < JS.rem a 2147483648 < 2 ^ 31.
Proof.
  unfold JS.rem.
  pose proof (Z.rem_bound_abs a 2147483648). lia.
Qed.

Lemma rem_int32 a : int32 (JS.rem a 2147483648).
Proof. pose proof (rem_range a). unfold int32. lia. Qed.

Lemma shift_count k : 0 <= k < 32 -> Z.land (JS.ToUint32 k) 31 = k.
Proof.
  intros Hk. unfold JS.ToUint32.
  rewrite (Z.mod_small k) by lia.
  change 31 with (Z.ones 5). rewrite Z.land_ones by lia.
  apply Z.mod_small. change (2 ^ 5) with 32. lia.
Qed.

(** Above bit 30 a signed 32-bit value repeats its sign. *)
Lemma int32_high_bits h n :
  int32 h -> 31 <= n -> Z.testbit h n = (h <? 0).
Proof.
  unfold int32. intros Hh Hn.
  assert (Hpow : 2 ^ 31 <= 2 ^ n) by (apply Z.pow_le_mono_r; lia).
  destruct (Z.ltb_spec h 0) as [Hneg | Hpos].
  - apply Z.bits_above_log2_neg; [lia |].
    destruct (Z.eq_dec (Z.pred (- h)) 0) as [-> | Hnz]; [simpl; lia |].
    apply Z.log2_lt_pow2; lia.
  - destruct (Z.eq_dec h 0) as [-> | Hnz]; [apply Z.bits_0 |].
    apply Z.bits_above_log2; [lia |].
    apply Z.log2_lt_pow2; lia.
Qed.

Lemma shiftr_int32 h k : 0 <= k -> int32 h -> int32 (Z.shiftr h k).
Proof.
  unfold int32. intros Hk Hh.
  rewrite Z.shiftr_div_pow2 by lia.
  assert (0 < 2 ^ k) by (apply Z.pow_pos_nonneg; lia).
  split.
  - apply Z.div_le_lower_bound; [lia |]. nia.
  - apply Z.div_lt_upper_bound; [lia |]. nia.
Qed.

(** [h ^ (h >> k)] clears the sign: both operands carry the same one. *)
Lemma lxor_shiftr_range h k :
  0 <= k -> int32 h -> 0 <= Z.lxor h (Z.shiftr h k) < 2 ^ 31.
Proof.
  intros Hk Hh.
  assert (Hnn : 0 <= Z.lxor h (Z.shiftr h k)).
  { apply Z.lxor_nonneg. rewrite Z.shiftr_nonneg. tauto. }
  split; [exact Hnn |].
  destruct (Z.lt_ge_cases (Z.lxor h (Z.shiftr h k)) (2 ^ 31)) as [? | Hbig];
    [assumption | exfalso].
  set (r := Z.lxor h (Z.shiftr h k)) in *.
  assert (Hr : 0 < r) by lia.
  pose proof (Z.bit_log2 r Hr) as Hbit.
  assert (Hlog : 31 <= Z.log2 r) by (apply Z.log2_le_pow2; lia).
  unfold r in Hbit at 1.
  rewrite Z.lxor_spec, Z.shiftr_spec in Hbit by lia.
  rewrite !int32_high_bits in Hbit by (auto; lia).
  destruct (h <? 0); discriminate.
Qed.

Lemma xor_sar_small h k :
  0 <= k < 32 -> int32 h -> JS.xor h (JS.sar h k) = Z.lxor h (Z.shiftr h k).
Proof.
  intros Hk Hh. unfold JS.xor, JS.sar.
  rewrite shift_count by lia.
  rewrite (ToInt32_small h) by assumption.
  rewrite (ToInt32_small (Z.shiftr h k)) by (apply shiftr_int32; [lia | assumption]).
  apply ToInt32_small.
  pose proof (lxor_shiftr_range h k ltac:(lia) Hh). unfold int32. lia.
Qed.

Lemma shl_small h k :
  0 <= k < 32 -> int32 h -> JS.shl h k = JS.ToInt32 (h * 2 ^ k).
Proof.
  intros Hk Hh. unfold JS.shl.
  rewrite shift_count by lia.
  rewrite (ToInt32_small h) by assumption.
  now rewrite Z.shiftl_mul_pow2 by lia.
Qed.

Lemma shr_0 h : JS.shr h 0 = h mod 2 ^ 32.
Proof. unfold JS.shr. now rewrite shift_count, Z.shiftr_0_r by lia. Qed.

End Int32.

(** ** The hash *)
Section HashFacts.

Import JS Hash.

Lemma seed_of_int32 r : int32 (seed_of r).
Proof. apply ToInt32_range. Qed.

(** One round of the loop, with the conversions that do nothing
    removed. *)
Lemma mix_signed_step h b : mix h b = signed_step h b.
Proof.
  unfold mix, signed_step. cbv zeta.
  change (2 ^ 31) with 2147483648. unfold JS.rem.
  set (h1 := Z.rem (h + num_of b) 2147483648).
  assert (H1 : int32 h1) by apply rem_int32.
  rewrite (shl_small h1 10) by (lia || assumption).
  set (h2 := Z.rem (h1 + ToInt32 (h1 * 2 ^ 10)) 2147483648).
  assert (H2 : int32 h2) by apply rem_int32.
  apply xor_sar_small; [lia | assumption].
Qed.

(** After a round the state is non-negative and below 2^31, whatever
    it was before. *)
Lemma mix_range h b : 0 <= mix h b < 2 ^ 31.
Proof.
  rewrite mix_signed_step. unfold signed_step. cbv zeta.
  apply lxor_shiftr_range; [lia |].
  change (2 ^ 31) with 2147483648. apply rem_int32.
Qed.

Lemma fold_mix_int32 ip seed : int32 seed -> int32 (fold_left mix ip seed).
Proof.
  revert seed. induction ip as [| b ip IH]; intros seed Hs; simpl.
  - exact Hs.
  - apply IH. pose proof (mix_range seed b). unfold int32. lia.
Qed.

Lemma fold_mix_signed ip seed :
  fold_left mix ip seed = fold_left signed_step ip seed.
Proof.
  revert seed. induction ip as [| b ip IH]; intros seed; simpl.
  - reflexivity.
  - now rewrite mix_signed_step, IH.
Qed.

Lemma finish_signed h : int32 h -> finish h = signed_finish h.
Proof.
  intros Hh. unfold finish, signed_finish. cbv zeta.
  change (2 ^ 31) with 2147483648. unfold JS.rem.
  rewrite (shl_small h 3) by (lia || assumption).
  set (h1 := Z.rem (h + ToInt32 (h * 2 ^ 3)) 2147483648).
  assert (H1 : int32 h1) by apply rem_int32.
  rewrite (xor_sar_small h1 11) by (lia || assumption).
  pose proof (lxor_shiftr_range h1 11 ltac:(lia) H1) as H2.
  set (h2 := Z.lxor h1 (Z.shiftr h1 11)) in *.
  rewrite (shl_small h2 15); [reflexivity | lia | unfold int32; lia].
Qed.

(** The value before the final cast lies strictly between -2^31 and
    2^31. *)
Lemma finish_range h : - 2 ^ 31 < finish h < 2 ^ 31.
Proof. unfold finish. cbv zeta. apply rem_range. Qed.

End HashFacts.

Section HashClaims.

Import JS Hash.

(** C2, as the code has it.  For every signed 32-bit seed and every
    byte sequence, [hash] is the mixer computed with JavaScript's
    signed 32-bit operators: the left shifts wrap to a signed 32-bit
    value, [%] keeps the sign of the dividend, the right shifts
    propagate the sign.  The state after each byte is non-negative and
    below 2^31, the value before the final cast lies strictly between
    -2^31 and 2^31 (it can be negative), and the result is that value
    modulo 2^32, an unsigned 32-bit number. *)
Theorem hash_signed_mixer seed ip :
  int32 seed ->
  hash seed ip = signed_mixer seed ip
  /\ 0 <= hash seed ip < 2 ^ 32
  /\ (forall p b q, ip = p ++ b :: q ->
        0 <= fold_left mix (p ++ [b]) seed < 2 ^ 31)
  /\ - 2 ^ 31 < finish (fold_left mix ip seed) < 2 ^ 31.
Proof.
  intros Hseed. repeat split.
  - unfold hash, signed_mixer.
    rewrite shr_0, finish_signed by (apply fold_mix_int32; assumption).
    now rewrite fold_mix_signed.
  - unfold hash. rewrite shr_0. apply Z.mod_pos_bound. lia.
  - unfold hash. rewrite shr_0. apply Z.mod_pos_bound. lia.
  - rewrite fold_left_app. simpl. apply mix_range.
  - rewrite fold_left_app. simpl. apply mix_range.
  - apply finish_range.
  - apply finish_range.
Qed.

Lemma hash_signed_mixer_witness :
  int32 (seed_of 5)
  /\ hash (seed_of 5) (list_byte_of_string "127.0.0.1")
     = signed_mixer (seed_of 5) (list_byte_of_string "127.0.0.1").
Proof.
  assert (H : int32 (seed_of 5)) by (vm_compute; split; [discriminate | reflexivity]).
  split; [exact H |].
  exact (proj1 (hash_signed_mixer (seed_of 5)
                  (list_byte_of_string "127.0.0.1") H)).
Defined.

(** C2 as the specification words it fails: with seed 0 and the single
    byte 49 the last left shift overflows into the sign bit, the value
    before the cast is negative and the result is not below 2^31,
    while the mixer with logical shifts and sums modulo 2^31 gives
    another number. *)
Lemma hash_differs_from_spec_mixer :
  hash (seed_of 0) (list_byte_of_string "1") = 2154528969
  /\ spec_mixer (seed_of 0) (list_byte_of_string "1") = 7045321
  /\ finish (fold_left mix (list_byte_of_string "1") (seed_of 0))
     = -2140438327
  /\ hash (seed_of 0) (list_byte_of_string "1")
     <> spec_mixer (seed_of 0) (list_byte_of_string "1").
Proof. vm_compute. repeat split; discriminate. Qed.

(** The hash never goes below zero, which the index computation of the
    sticky policy relies on. *)
Lemma hash_nonneg seed ip : 0 <= hash seed ip.
Proof. unfold hash. rewrite shr_0. apply Z.mod_pos_bound. lia. Qed.

End HashClaims.

(** ** The worker's message handler *)
Section WorkerClaims.

Import Worker.

(** C7.  The handler changes the server exactly when the body is the
    string "balancing" and a socket is attached; it then adds one to
    [_connections], makes the server the socket's owner and emits
    [connection] with that socket.  Any other message leaves server
    and socket as they were. *)
Theorem on_message_balancing msg sock srv :
  (fst (on_message msg sock srv) <> srv
     <-> msg = JStr "balancing" /\ is_Some sock)
  /\ (forall s, msg = JStr "balancing" -> sock = Some s ->
        let s' := Socket (fd s) (remoteAddress s) (Some (srv_id srv)) in
        on_message msg sock srv
        = (Server (srv_id srv) (_connections srv + 1)
                  (emitted srv ++ [("connection"%string, s')]),
           Some s'))
  /\ (~ (msg = JStr "balancing" /\ is_Some sock) ->
        on_message msg sock srv = (srv, sock)).
Proof.
  unfold on_message. destruct sock as [s |].
  - destruct (decide (msg <> JStr "balancing")) as [Hne | Heq].
    + split; [split | split].
      * intros H. now contradiction H.
      * intros [Hm _]. contradiction.
      * intros s0 Hm. contradiction.
      * reflexivity.
    + apply dec_stable in Heq. subst msg. split; [split | split].
      * intros _. split; [reflexivity | eexists; reflexivity].
      * intros _. destruct srv as [i c e]. simpl. intros [=]. lia.
      * intros s0 _ [= <-]. reflexivity.
      * intros H. contradiction H. split; [reflexivity | eexists; reflexivity].
  - split; [split | split].
    + intros H. now contradiction H.
    + intros [_ [s Hs]]. discriminate.
    + intros s _ [=].
    + reflexivity.
Qed.

Lemma on_message_balancing_witness :
  on_message (JStr "balancing") (Some (Scenario.client 1 "10.0.0.7"))
             (Server 0 0 [])
  = (Server 0 1 [("connection"%string,
                  Socket 1 (Some "10.0.0.7"%string) (Some 0%nat))],
     Some (Socket 1 (Some "10.0.0.7"%string) (Some 0%nat))).
Proof.
  exact (proj1 (proj2 (on_message_balancing
                         (JStr "balancing")
                         (Some (Scenario.client 1 "10.0.0.7"))
                         (Server 0 0 [])))
               (Scenario.client 1 "10.0.0.7") eq_refl eq_refl).
Defined.

End WorkerClaims.

(** ** The balancer *)
Section BalancerFacts.

Import Master.
Local Open Scope cluster_scope.

(** Unfolds the monadic layer of the balancer. *)
Ltac run_balance :=
  cbv [balance select workers_shift workers_push get_connected worker_send
       try_catch bind ret get modify emit throw];
  cbn [isPermanentConnection workers children trace seed
       set_workers set_trace].

Lemma set_workers_same m : set_workers (workers m) m = m.
Proof. now destruct m. Qed.

(** The choice never throws; it leaves everything but the routing
    list alone. *)
Lemma select_sticky sock m :
  isPermanentConnection m = true ->
  select sock m
  = (inr (worker_at (workers m) (Hash.hash (seed m) (addr_of sock))), m).
Proof. intros Hp. destruct m. simpl in Hp. subst. reflexivity. Qed.

Lemma select_rr sock m :
  isPermanentConnection m = false ->
  select sock m
  = match workers m with
    | [] => (inr Undefined, set_workers [Undefined] m)
    | w :: ws => (inr w, set_workers (ws ++ [w]) m)
    end.
Proof.
  intros Hp. destruct m as [? ? ? ? ? ? ? ? ? ? ws ? ?]. simpl in Hp. subst.
  destruct ws; reflexivity.
Qed.

(** What the [try]/[catch] of [balance] adds to the trace for the
    chosen worker. *)
Lemma balance_outcome sock m worker ms :
  select sock m = (inr worker, ms) ->
  exists evs,
    balance sock m = (inr tt, set_trace (trace ms ++ evs) ms)
    /\ match worker with
       | Handle w =>
           if live ms worker then evs = [Send w "balancing" sock]
           else exists e,
               evs = [LogError e; SocketEmit sock "close"; SocketEnd sock]
       | Undefined =>
           exists e,
             evs = [LogError e; SocketEmit sock "close"; SocketEnd sock]
       end.
Proof.
  intros Hsel. unfold balance, bind at 1. rewrite Hsel.
  destruct ms as [? ? ? ? ? ? ? ? ? ? ws ch tr].
  destruct worker as [| w]; run_balance.
  - eexists. split; [| eexists; reflexivity].
    cbv [set_trace]. cbn. now rewrite <- !app_assoc.
  - unfold live. cbn [children].
    destruct (ch !! w) as [[a e c k] |] eqn:Hch; cbn.
    + destruct c, k; cbn; rewrite ?Hch; cbn.
      * eexists. split; reflexivity.
      * eexists. split; [| eexists; reflexivity].
        cbv [set_trace]. cbn. now rewrite <- !app_assoc.
      * eexists. split; [| eexists; reflexivity].
        cbv [set_trace]. cbn. now rewrite <- !app_assoc.
      * eexists. split; [| eexists; reflexivity].
        cbv [set_trace]. cbn. now rewrite <- !app_assoc.
    + eexists. split; [| eexists; reflexivity].
      cbv [set_trace]. cbn. now rewrite <- !app_assoc.
Qed.

End BalancerFacts.

Section BalancerClaims.

Import Master.
Local Open Scope cluster_scope.

(** C9.  Round-robin on an empty routing list: [balance] returns
    normally (the [TypeError] of reading [connected] on [undefined] is
    caught, logged, and the socket is closed and ended), and leaves a
    routing list of length one whose only element is [undefined]. *)
Theorem balance_empty_round_robin sock m :
  isPermanentConnection m = false ->
  workers m = [] ->
  exists text m',
    balance sock m = (inr tt, m')
    /\ workers m' = [Undefined]
    /\ length (workers m') = 1%nat
    /\ trace m' = trace m ++ [LogError (TypeError text);
                              SocketEmit sock "close"; SocketEnd sock].
Proof.
  intros Hp Hw. destruct m as [? ? ? ? ? ? ? ? ? ? ws ch tr].
  simpl in Hp, Hw. subst.
  eexists _, _. split; [reflexivity |]. cbn.
  repeat split. now rewrite <- !app_assoc.
Qed.

Lemma balance_empty_round_robin_witness :
  isPermanentConnection (Scenario.initial [] 9229 false false 2) = false
  /\ workers (Scenario.initial [] 9229 false false 2) = []
  /\ exists text m',
       balance (Scenario.client 1 "10.0.0.7")
               (Scenario.initial [] 9229 false false 2) = (inr tt, m')
       /\ workers m' = [Undefined]
       /\ length (workers m') = 1%nat
       /\ trace m' = trace (Scenario.initial [] 9229 false false 2)
                     ++ [LogError (TypeError text);
                         SocketEmit (Scenario.client 1 "10.0.0.7") "close";
                         SocketEnd (Scenario.client 1 "10.0.0.7")].
Proof.
  split; [reflexivity |]. split; [reflexivity |].
  apply (balance_empty_round_robin (Scenario.client 1 "10.0.0.7")
           (Scenario.initial [] 9229 false false 2)); reflexivity.
Defined.

Lemma worker_at_lookup ws hash :
  ws <> [] -> 0 <= hash ->
  ws !! Z.to_nat (hash mod Z.of_nat (length ws)) = Some (worker_at ws hash).
Proof.
  intros Hne Hh. unfold worker_at.
  destruct (decide (length ws = 0%nat)) as [H0 | Hlen].
  { destruct ws; [contradiction | discriminate]. }
  unfold JS.rem. rewrite Z.rem_mod_nonneg by lia.
  pose proof (Z.mod_pos_bound hash (Z.of_nat (length ws)) ltac:(lia)).
  destruct (lookup_lt_is_Some_2 ws
              (Z.to_nat (hash mod Z.of_nat (length ws))) ltac:(lia))
    as [x Hx].
  now rewrite Hx.
Qed.

(** C4.  Sticky balancing on a non-empty routing list chooses the
    worker at index [hash(addr) mod length] and leaves the list as it
    was; a later connection from the same remote address is given the
    same worker. *)
Theorem sticky_select sock m :
  isPermanentConnection m = true ->
  workers m <> [] ->
  exists worker,
    workers m !! Z.to_nat (Hash.hash (seed m) (addr_of sock)
                           mod Z.of_nat (length (workers m)))
    = Some worker
    /\ select sock m = (inr worker, m)
    /\ workers (snd (balance sock m)) = workers m
    /\ forall sock',
         remoteAddress sock' = remoteAddress sock ->
         fst (select sock' (snd (balance sock m))) = inr worker.
Proof.
  intros Hp Hne.
  exists (worker_at (workers m) (Hash.hash (seed m) (addr_of sock))).
  pose proof (select_sticky sock m Hp) as Hsel.
  destruct (balance_outcome sock m _ _ Hsel) as (evs & Hbal & _).
  rewrite Hbal. cbn [snd].
  split; [apply worker_at_lookup; [assumption | apply hash_nonneg] |].
  split; [assumption |].
  split; [now destruct m |].
  intros sock' Haddr. rewrite select_sticky by now destruct m.
  cbn [fst]. unfold addr_of. rewrite Haddr. now destruct m.
Qed.

Lemma sticky_select_witness :
  isPermanentConnection (Scenario.started [] 9229 true true 3) = true
  /\ workers (Scenario.started [] 9229 true true 3) <> []
  /\ exists worker,
       workers (Scenario.started [] 9229 true true 3)
         !! Z.to_nat (Hash.hash (seed (Scenario.started [] 9229 true true 3))
                                (addr_of (Scenario.client 1 "10.0.0.7"))
                      mod Z.of_nat
                            (length (workers (Scenario.started [] 9229 true true 3))))
       = Some worker
       /\ select (Scenario.client 1 "10.0.0.7")
                 (Scenario.started [] 9229 true true 3)
          = (inr worker, Scenario.started [] 9229 true true 3).
Proof.
  assert (Hp : isPermanentConnection (Scenario.started [] 9229 true true 3)
               = true) by reflexivity.
  assert (Hw : workers (Scenario.started [] 9229 true true 3) <> [])
    by (vm_compute; discriminate).
  split; [exact Hp |]. split; [exact Hw |].
  destruct (sticky_select (Scenario.client 1 "10.0.0.7")
              (Scenario.started [] 9229 true true 3) Hp Hw)
    as (worker & Hi & Hs & _).
  exists worker. split; assumption.
Defined.

(** C6.  On a non-empty routing list [balance] returns normally and
    adds to the trace either the single send of "balancing" with the
    socket, which happens only to a handle whose channel reports
    connected, or, on any failure (no handle, channel not connected,
    [send] throwing), the logged error, the socket's [close] event and
    the end of the socket, in that order.  In both cases the routing
    list is the one the selection left: the chosen worker is still in
    it and its length is unchanged. *)
Theorem balance_send_or_drop sock m :
  workers m <> [] ->
  exists worker ms evs,
    select sock m = (inr worker, ms)
    /\ balance sock m = (inr tt, set_trace (trace m ++ evs) ms)
    /\ worker ∈ workers ms
    /\ length (workers ms) = length (workers m)
    /\ children ms = children m
    /\ (if live m worker
        then exists w, worker = Handle w /\ evs = [Send w "balancing" sock]
        else exists e,
            evs = [LogError e; SocketEmit sock "close"; SocketEnd sock])
    /\ (forall w msg s,
          Send w msg s ∈ evs ->
          worker = Handle w /\ msg = "balancing"%string /\ s = sock
          /\ exists c, children m !! w = Some c /\ connected c = true).
Proof.
  intros Hne.
  assert (Hsel : exists worker ms,
             select sock m = (inr worker, ms)
             /\ worker ∈ workers ms
             /\ length (workers ms) = length (workers m)
             /\ children ms = children m /\ trace ms = trace m).
  { destruct (isPermanentConnection m) eqn:Hp.
    - eexists _, m. split; [apply (select_sticky sock m Hp) |].
      split; [| repeat split].
      eapply list_elem_of_lookup_2, worker_at_lookup;
        [assumption | apply hash_nonneg].
    - rewrite (select_rr sock m Hp).
      destruct (workers m) as [| x ws] eqn:Hws; [contradiction |].
      eexists _, _. split; [reflexivity |].
      destruct m; cbn in *. subst.
      split; [apply elem_of_app; right; apply list_elem_of_singleton;
              reflexivity |].
      rewrite length_app. cbn. repeat split. lia. }
  destruct Hsel as (worker & ms & Hsel & Hin & Hlen & Hch & Htr).
  destruct (balance_outcome sock m worker ms Hsel) as (evs & Hbal & Hevs).
  exists worker, ms, evs. rewrite <- Htr.
  assert (Hlive : live ms worker = live m worker).
  { unfold live. now rewrite Hch. }
  rewrite Hlive in Hevs.
  repeat (split; [assumption |]).
  destruct worker as [| w]; cbn [live] in *.
  - destruct Hevs as [e ->]. split; [eexists; reflexivity |].
    intros w msg s Hs. repeat (apply elem_of_cons in Hs as [Hs | Hs];
      [discriminate |]). now apply elem_of_nil in Hs.
  - destruct (children m !! w) as [c |] eqn:Hc; cbn in *.
    + destruct (connected c) eqn:Hcon, (channel_ok c); cbn in *.
      * subst evs. split; [eexists; split; reflexivity |].
        intros w' msg s Hs. apply list_elem_of_singleton in Hs.
        injection Hs as -> -> ->. repeat (split; [reflexivity |]).
        exists c. split; assumption.
      * destruct Hevs as [e ->]. split; [eexists; reflexivity |].
        intros w' msg s Hs.
        repeat (apply elem_of_cons in Hs as [Hs | Hs]; [discriminate |]).
        now apply elem_of_nil in Hs.
      * destruct Hevs as [e ->]. split; [eexists; reflexivity |].
        intros w' msg s Hs.
        repeat (apply elem_of_cons in Hs as [Hs | Hs]; [discriminate |]).
        now apply elem_of_nil in Hs.
      * destruct Hevs as [e ->]. split; [eexists; reflexivity |].
        intros w' msg s Hs.
        repeat (apply elem_of_cons in Hs as [Hs | Hs]; [discriminate |]).
        now apply elem_of_nil in Hs.
    + destruct Hevs as [e ->]. split; [eexists; reflexivity |].
      intros w' msg s Hs.
      repeat (apply elem_of_cons in Hs as [Hs | Hs]; [discriminate |]).
      now apply elem_of_nil in Hs.
Qed.

Lemma balance_send_or_drop_witness :
  workers (snd (exit_event 1 0 Scenario.example)) <> []
  /\ exists worker ms evs,
       select (Scenario.client 1 "10.0.0.7")
              (snd (exit_event 1 0 Scenario.example)) = (inr worker, ms)
       /\ balance (Scenario.client 1 "10.0.0.7")
                  (snd (exit_event 1 0 Scenario.example))
          = (inr tt,
             set_trace (trace (snd (exit_event 1 0 Scenario.example)) ++ evs)
                       ms).
Proof.
  assert (H : workers (snd (exit_event 1 0 Scenario.example)) <> [])
    by (vm_compute; discriminate).
  split; [exact H |].
  destruct (balance_send_or_drop (Scenario.client 1 "10.0.0.7")
              (snd (exit_event 1 0 Scenario.example)) H)
    as (worker & ms & evs & H1 & H2 & _).
  exists worker, ms, evs. split; assumption.
Defined.

(** Rotating a list by one moves every index back by one, modulo the
    length. *)
Lemma lookup_after_rotation (x : slot) rest j :
  (rest ++ [x]) !! (j mod S (length rest))%nat
  = (x :: rest) !! (S j mod S (length rest))%nat.
Proof.
  remember (S (length rest)) as M eqn:HM.
  assert (HM0 : (M <> 0)%nat) by lia.
  pose proof (Nat.mod_upper_bound j M HM0) as Hr.
  pose proof (Nat.div_mod_eq j M) as Hj.
  remember (j / M)%nat as q eqn:Hq. remember (j mod M)%nat as r eqn:Hrdef.
  clear Hq Hrdef.
  destruct (decide (S r < M)%nat) as [Hlt | Hge].
  - assert (Hs : (S j mod M)%nat = S r).
    { symmetry. apply (Nat.mod_unique (S j) M q (S r)); lia. }
    rewrite Hs. cbn. apply lookup_app_l. lia.
  - assert (Hs : (S j mod M)%nat = 0%nat).
    { symmetry. apply (Nat.mod_unique (S j) M (S q) 0); [lia |].
      rewrite Nat.mul_succ_r. lia. }
    rewrite Hs. cbn. apply list_lookup_middle. lia.
Qed.

Lemma balance_rr_live sock m w rest :
  isPermanentConnection m = false ->
  workers m = Handle w :: rest ->
  live m (Handle w) = true ->
  balance sock m
  = (inr tt, set_trace (trace m ++ [Send w "balancing" sock])
                       (set_workers (rest ++ [Handle w]) m)).
Proof.
  intros Hp Hw Hl.
  pose proof (select_rr sock m Hp) as Hsel. rewrite Hw in Hsel.
  destruct (balance_outcome sock m _ _ Hsel) as (evs & Hbal & Hevs).
  assert (Hl' : live (set_workers (rest ++ [Handle w]) m) (Handle w) = true)
    by (destruct m; exact Hl).
  rewrite Hl' in Hevs. subst evs. rewrite Hbal. now destruct m.
Qed.

Lemma serve_round_robin socks : forall m,
  isPermanentConnection m = false ->
  workers m <> [] ->
  Forall (fun x => live m x = true) (workers m) ->
  exists m' evs,
    serve socks m = (inr tt, m')
    /\ trace m' = trace m ++ evs
    /\ length evs = length socks
    /\ forall i s,
         socks !! i = Some s ->
         exists w,
           workers m !! (i mod length (workers m))%nat = Some (Handle w)
           /\ evs !! i = Some (Send w "balancing" s).
Proof.
  induction socks as [| sock socks IH]; intros m Hp Hne Hlive.
  - exists m, []. cbn. rewrite app_nil_r. repeat split.
    intros i s Hs. discriminate.
  - destruct (workers m) as [| x rest] eqn:Hw; [contradiction |].
    apply Forall_cons in Hlive as [Hx Hrest].
    destruct x as [| w]; [discriminate |].
    pose proof (balance_rr_live sock m w rest Hp Hw Hx) as Hbal.
    set (m1 := set_trace (trace m ++ [Send w "balancing" sock])
                         (set_workers (rest ++ [Handle w]) m)) in *.
    assert (Hw1 : workers m1 = rest ++ [Handle w]) by now destruct m.
    assert (Hl1 : forall x, live m1 x = live m x) by now destruct m.
    destruct (IH m1) as (m' & evs & Hrun & Htr & Hlen & Hith).
    + now destruct m.
    + rewrite Hw1. now destruct rest.
    + rewrite Hw1. apply Forall_app. split.
      * eapply Forall_impl; [exact Hrest |]. intros y Hy. now rewrite Hl1.
      * apply Forall_cons. split; [now rewrite Hl1 | constructor].
    + exists m', (Send w "balancing" sock :: evs).
      split; [| split; [| split]].
      * cbn [serve]. unfold bind. now rewrite Hbal.
      * rewrite Htr. destruct m; cbn. now rewrite <- app_assoc.
      * cbn. now rewrite Hlen.
      * intros i s Hs. destruct i as [| j].
        { injection Hs as <-. exists w. split; [| reflexivity].
          now rewrite Nat.Div0.mod_0_l. }
        destruct (Hith j s Hs) as (w' & Hat & Hev).
        exists w'. split; [| exact Hev].
        rewrite Hw1, length_app in Hat. cbn in Hat.
        rewrite Nat.add_1_r in Hat.
        cbn [length]. rewrite <- lookup_after_rotation. exact Hat.
Qed.

(** C3.  Round-robin over a non-empty routing list of workers that all
    take the socket: the i-th of K sequential connections is sent, with
    message "balancing", to the worker at index [i mod M] of the list
    as it stood before the first one (so the first goes to the head),
    and each single call moves the head of the list to its tail. *)
Theorem round_robin_order socks m :
  isPermanentConnection m = false ->
  workers m <> [] ->
  Forall (fun x => live m x = true) (workers m) ->
  (exists m' evs,
     serve socks m = (inr tt, m')
     /\ trace m' = trace m ++ evs
     /\ length evs = length socks
     /\ forall i s,
          socks !! i = Some s ->
          exists w,
            workers m !! (i mod length (workers m))%nat = Some (Handle w)
            /\ evs !! i = Some (Send w "balancing" s))
  /\ forall s,
       workers (snd (balance s m)) = tail (workers m) ++ take 1 (workers m).
Proof.
  intros Hp Hne Hlive. split.
  - now apply serve_round_robin.
  - intros s. destruct (workers m) as [| x rest] eqn:Hw; [contradiction |].
    apply Forall_cons in Hlive as [Hx _].
    destruct x as [| w]; [discriminate |].
    rewrite (balance_rr_live s m w rest Hp Hw Hx). now destruct m.
Qed.

Lemma round_robin_order_witness :
  isPermanentConnection Scenario.example = false
  /\ workers Scenario.example <> []
  /\ Forall (fun x => live Scenario.example x = true)
            (workers Scenario.example)
  /\ exists m' evs,
       serve [Scenario.client 1 "10.0.0.7"; Scenario.client 2 "10.0.0.8";
              Scenario.client 3 "10.0.0.9"] Scenario.example = (inr tt, m')
       /\ trace m' = trace Scenario.example ++ evs
       /\ length evs = 3%nat.
Proof.
  assert (Hp : isPermanentConnection Scenario.example = false)
    by reflexivity.
  assert (Hne : workers Scenario.example <> [])
    by (vm_compute; discriminate).
  assert (Hl : Forall (fun x => live Scenario.example x = true)
                      (workers Scenario.example))
    by (repeat constructor).
  split; [exact Hp |]. split; [exact Hne |]. split; [exact Hl |].
  destruct (proj1 (round_robin_order
                     [Scenario.client 1 "10.0.0.7";
                      Scenario.client 2 "10.0.0.8";
                      Scenario.client 3 "10.0.0.9"]
                     Scenario.example Hp Hne Hl))
    as (m' & evs & H1 & H2 & H3 & _).
  exists m', evs. repeat split; assumption.
Defined.

End BalancerClaims.

(** ** The supervisor *)
Section SupervisorFacts.

Import Master.
Local Open Scope cluster_scope.

(** [spawnWorker] returns normally; the handle of the new child is the
    next unique id and goes to the tail of the routing list. *)
Lemma spawnWorker_spec m :
  exists m',
    spawnWorker m = (inr tt, m')
    /\ workers m' = workers m ++ [Handle (S (processUniqueId m))]
    /\ processUniqueId m' = S (processUniqueId m)
    /\ (exists e,
          children m'
          = <[S (processUniqueId m) := Child (child_execArgv m) e true true]>
              (children m))
    /\ debugPortOffset m'
       = (if existsb inspectRegex_match (process_execArgv m)
          then debugPortOffset m + 1 else debugPortOffset m)
    /\ process_execArgv m' = process_execArgv m
    /\ process_debugPort m' = process_debugPort m
    /\ needRespawn m' = needRespawn m
    /\ isPermanentConnection m' = isPermanentConnection m
    /\ trace m' = trace m.
Proof.
  destruct m as [o id args port penv perm cnt resp e sd ws ch tr].
  unfold spawnWorker, fork, ch_fork, child_execArgv, bind, get, modify, ret.
  cbn [env process_env process_execArgv processUniqueId process_debugPort
       debugPortOffset set_processUniqueId set_debugPortOffset].
  destruct (existsb inspectRegex_match args); cbn;
    (eexists; split; [reflexivity |]; cbn; repeat split; eexists; reflexivity).
Qed.

Lemma indexOf_elem ws x :
  x ∈ ws ->
  exists i : nat,
    indexOf ws x = Z.of_nat i /\ ws !! i = Some x /\ x ∉ take i ws.
Proof.
  induction ws as [| y ws IH]; intros Hin.
  - now apply elem_of_nil in Hin.
  - cbn [indexOf]. destruct (decide (y = x)) as [-> | Hne].
    + exists 0%nat. repeat split. cbn. apply not_elem_of_nil.
    + apply elem_of_cons in Hin as [-> | Hin]; [contradiction |].
      destruct (IH Hin) as (i & Hi & Hat & Hbefore).
      exists (S i). rewrite Hi.
      destruct (Z.eqb_spec (Z.of_nat i) (-1)) as [Hm | _]; [lia |].
      split; [lia |]. split; [exact Hat |].
      cbn. apply not_elem_of_cons. split; [congruence | exact Hbefore].
Qed.

Lemma indexOf_absent ws x : x ∉ ws -> indexOf ws x = -1.
Proof.
  induction ws as [| y ws IH]; intros Hnin; [reflexivity |].
  apply not_elem_of_cons in Hnin as [Hne Hnin].
  cbn [indexOf]. destruct (decide (y = x)) as [-> | _]; [contradiction |].
  now rewrite (IH Hnin).
Qed.

(** [respawn] in terms of the list: the first occurrence of the handle
    goes, if there is one, and [spawnWorker] runs on the rest. *)
Lemma respawn_present m w i :
  indexOf (workers m) (Handle w) = Z.of_nat i ->
  respawn w m = spawnWorker (set_workers (delete i (workers m)) m).
Proof.
  intros Hi. unfold respawn, bind at 1, get. rewrite Hi.
  destruct (Z.eqb_spec (Z.of_nat i) (-1)) as [Hm | _]; [lia |].
  cbn [negb]. unfold bind at 1, modify. now rewrite Nat2Z.id.
Qed.

Lemma respawn_absent m w :
  Handle w ∉ workers m -> respawn w m = spawnWorker m.
Proof.
  intros Hnin. unfold respawn, bind at 1, get.
  now rewrite (indexOf_absent _ _ Hnin).
Qed.

(** [respawn] of a handle found at index [i]. *)
Lemma respawn_found m w i :
  indexOf (workers m) (Handle w) = Z.of_nat i ->
  exists m',
    respawn w m = (inr tt, m')
    /\ workers m' = delete i (workers m) ++ [Handle (S (processUniqueId m))]
    /\ live m' (Handle (S (processUniqueId m))) = true.
Proof.
  intros Hi. rewrite (respawn_present m w i Hi).
  destruct (spawnWorker_spec (set_workers (delete i (workers m)) m))
    as (m' & Hrun & Hws & _ & (e & Hch) & _).
  assert (Hid : processUniqueId (set_workers (delete i (workers m)) m)
                = processUniqueId m) by now destruct m.
  assert (Hw' : workers (set_workers (delete i (workers m)) m)
                = delete i (workers m)) by now destruct m.
  rewrite Hid in *. rewrite Hw' in Hws.
  exists m'. repeat (split; [assumption |]).
  unfold live. rewrite Hch, lookup_insert_eq. reflexivity.
Qed.

(** The loop always reaches its exit test within [length execArgv]
    rounds, and what it leaves is [splice_skip]. *)
Lemma splice_loop_skip fuel : forall i l,
  (length l - i <= fuel)%nat ->
  splice_loop fuel i l = take i l ++ splice_skip (drop i l).
Proof.
  induction fuel as [| fuel IH]; intros i l Hfuel.
  - cbn. rewrite take_ge, drop_ge by lia. now rewrite app_nil_r.
  - cbn [splice_loop]. destruct (l !! i) as [arg |] eqn:Hi.
    + pose proof (lookup_lt_Some _ _ _ Hi) as Hlt.
      rewrite (drop_S _ _ _ Hi). cbn [splice_skip].
      destruct (includes "--inspect-brk" arg).
      * rewrite IH by (rewrite length_delete by eauto; lia).
        rewrite delete_take_drop.
        assert (Hlen : length (take i l) = i) by (rewrite length_take; lia).
        rewrite take_app_ge, drop_app_ge by lia.
        rewrite Hlen. replace (S i - i)%nat with 1%nat by lia.
        destruct (drop (S i) l) as [| next rest]; cbn.
        -- now rewrite !app_nil_r.
        -- rewrite take_0, drop_0. now rewrite <- app_assoc.
      * rewrite IH by lia. rewrite (take_S_r _ _ _ Hi).
        now rewrite <- app_assoc.
    + apply lookup_ge_None in Hi.
      rewrite take_ge, drop_ge by lia. now rewrite app_nil_r.
Qed.

Lemma splice_inspect_brk_skip l : splice_inspect_brk l = splice_skip l.
Proof.
  unfold splice_inspect_brk. rewrite splice_loop_skip by lia.
  now rewrite take_0, drop_0.
Qed.

Lemma splice_loop_enough fuel l :
  (length l <= fuel)%nat -> splice_loop fuel 0 l = splice_inspect_brk l.
Proof.
  intros Hfuel. rewrite splice_inspect_brk_skip, splice_loop_skip by lia.
  now rewrite take_0, drop_0.
Qed.

(** When no two [--inspect-brk] arguments stand next to each other the
    loop removes them all. *)
Lemma splice_skip_clean n : forall l,
  (length l <= n)%nat ->
  (forall i a b, l !! i = Some a -> l !! S i = Some b ->
                 includes "--inspect-brk" a = true ->
                 includes "--inspect-brk" b = false) ->
  Forall (fun a => includes "--inspect-brk" a = false) (splice_skip l).
Proof.
  induction n as [| n IH]; intros l Hlen Hadj.
  - destruct l; [constructor | cbn in Hlen; lia].
  - destruct l as [| a rest]; [constructor |]. cbn [splice_skip].
    destruct (includes "--inspect-brk" a) eqn:Ha.
    + destruct rest as [| b rest']; [constructor |].
      constructor.
      * exact (Hadj 0%nat a b eq_refl eq_refl Ha).
      * apply IH; [cbn in Hlen; lia |].
        intros i x y Hx Hy. exact (Hadj (S (S i)) x y Hx Hy).
    + constructor; [exact Ha |].
      apply IH; [cbn in Hlen; lia |].
      intros i x y Hx Hy. exact (Hadj (S i) x y Hx Hy).
Qed.

Lemma inspectPort_of_below port offset :
  port + offset <= maxPort -> inspectPort_of port offset = port + offset.
Proof.
  intros Hle. unfold inspectPort_of.
  destruct (Z.gtb_spec (port + offset) maxPort); [lia | reflexivity].
Qed.

(** Children already forked are not touched by later spawns. *)
Lemma repeat_spawn_keeps n : forall m key,
  (key <= processUniqueId m)%nat ->
  children (snd (repeat_M n spawnWorker m)) !! key = children m !! key.
Proof.
  induction n as [| n IH]; intros m key Hkey; [reflexivity |].
  cbn [repeat_M]. unfold bind.
  destruct (spawnWorker_spec m) as (m1 & Hrun & _ & Hid & (e & Hch) & _).
  rewrite Hrun, IH by lia. rewrite Hch. apply lookup_insert_ne. lia.
Qed.

(** The k-th spawn (counting from zero) of a master run with an
    inspector flag: the child gets the master's arguments after the
    removal loop, followed by one [--inspect-brk=] with the port computed
    from the offset at that spawn. *)
Lemma spawned_child_execArgv n : forall m k,
  existsb inspectRegex_match (process_execArgv m) = true ->
  (k < n)%nat ->
  execArgv <$> children (snd (repeat_M n spawnWorker m))
                 !! (processUniqueId m + S k)%nat
  = Some (splice_inspect_brk (process_execArgv m)
          ++ [("--inspect-brk="
               +:+ show (inspectPort_of (process_debugPort m)
                           (debugPortOffset m + Z.of_nat k)))%string]).
Proof.
  induction n as [| n IH]; intros m k Hflag Hk; [lia |].
  cbn [repeat_M]. unfold bind.
  destruct (spawnWorker_spec m)
    as (m1 & Hrun & _ & Hid & (e & Hch) & Hoff & Hargs & Hport & _).
  rewrite Hrun. rewrite Hflag in Hoff. destruct k as [| k].
  - rewrite repeat_spawn_keeps by lia.
    rewrite Hch, Nat.add_1_r, lookup_insert_eq. cbn.
    unfold child_execArgv. now rewrite Hflag, Z.add_0_r.
  - replace (processUniqueId m + S (S k))%nat
      with (processUniqueId m1 + S k)%nat by lia.
    rewrite IH; [| now rewrite Hargs | lia].
    rewrite Hargs, Hport, Hoff.
    now replace (debugPortOffset m + 1 + Z.of_nat k)
      with (debugPortOffset m + Z.of_nat (S k)) by lia.
Qed.

End SupervisorFacts.

Section SupervisorClaims.

Import Master.
Local Open Scope cluster_scope.

(** C10.  Every respawn returns and appends the replacement, the child
    with the next unique id and a connected channel, at the tail of the
    routing list: it is the last element wherever the dead worker
    stood.  When the dead worker is in the list, it is removed from the
    first index where it stands and the length of the list is what it
    was; the workers before that index keep their positions, those
    after it each move one position towards the head, and a dead worker
    that stood at the tail is replaced in place, the order of the
    others unchanged. *)
Theorem respawn_appends_at_tail m w :
  exists m',
    respawn w m = (inr tt, m')
    /\ last (workers m') = Some (Handle (S (processUniqueId m)))
    /\ live m' (Handle (S (processUniqueId m))) = true
    /\ (Handle w ∈ workers m ->
        exists i : nat,
          workers m !! i = Some (Handle w)
          /\ (Handle w ∉ take i (workers m))
          /\ workers m'
             = delete i (workers m) ++ [Handle (S (processUniqueId m))]
          /\ length (workers m') = length (workers m)
          /\ (forall j, (j < i)%nat -> workers m' !! j = workers m !! j)
          /\ (forall j, (i <= j)%nat -> (S j < length (workers m))%nat ->
                        workers m' !! j = workers m !! S j)
          /\ (S i = length (workers m) ->
              workers m' = <[i := Handle (S (processUniqueId m))]> (workers m))).
Proof.
  destruct (decide (Handle w ∈ workers m)) as [Hin | Hnin].
  - destruct (indexOf_elem _ _ Hin) as (i & Hi & Hat & Hbefore).
    destruct (respawn_found m w i Hi) as (m' & Hrun & Hws & Hlive).
    pose proof (lookup_lt_Some _ _ _ Hat) as Hlt.
    exists m'. split; [exact Hrun |].
    split; [rewrite Hws; apply last_snoc |]. split; [exact Hlive |].
    intros _. exists i. split; [exact Hat |]. split; [exact Hbefore |].
    split; [exact Hws |]. rewrite Hws.
    assert (Hlen : length (delete i (workers m)) = (length (workers m) - 1)%nat)
      by (rewrite length_delete by (rewrite Hat; eauto); reflexivity).
    split; [rewrite length_app, Hlen; cbn; lia |].
    split; [| split].
    + intros j Hj. rewrite lookup_app_l by lia.
      now apply list_lookup_delete_lt.
    + intros j Hij Hj. rewrite lookup_app_l by lia.
      now apply list_lookup_delete_ge.
    + intros Hlast. rewrite delete_take_drop, insert_take_drop by lia.
      rewrite drop_ge by lia. now rewrite app_nil_r.
  - rewrite (respawn_absent m w Hnin).
    destruct (spawnWorker_spec m) as (m' & Hrun & Hws & _ & (e & Hch) & _).
    exists m'. split; [exact Hrun |].
    split; [rewrite Hws; apply last_snoc |].
    split; [| intros Hin; contradiction].
    unfold live. rewrite Hch, lookup_insert_eq. reflexivity.
Qed.

Lemma respawn_appends_at_tail_witness :
  Handle 1 ∈ workers (Scenario.started [] 9229 false true 3)
  /\ exists (i : nat) m',
       respawn 1 (Scenario.started [] 9229 false true 3) = (inr tt, m')
       /\ last (workers m') = Some (Handle 4)
       /\ workers (Scenario.started [] 9229 false true 3) !! i
          = Some (Handle 1)
       /\ workers m'
          = delete i (workers (Scenario.started [] 9229 false true 3))
            ++ [Handle (S (processUniqueId
                             (Scenario.started [] 9229 false true 3)))].
Proof.
  assert (H : Handle 1 ∈ workers (Scenario.started [] 9229 false true 3))
    by (apply (list_elem_of_lookup_2 _ 0%nat); reflexivity).
  split; [exact H |].
  destruct (respawn_appends_at_tail
              (Scenario.started [] 9229 false true 3) 1%nat)
    as (m' & H1 & H2 & _ & Hlisted).
  destruct (Hlisted H) as (i & H3 & _ & H4 & _).
  exists i, m'. repeat split; assumption.
Defined.

(** A respawn does not always permute the rotation: when the dead
    worker stood at the tail of the list, the survivors keep their
    positions and the replacement takes the very place of the dead one,
    so the rotation visits the same positions in the same order.  Nor is
    the size of the pool always kept: a worker that announced [close]
    has left the list when its exit is handled, nothing is removed then
    and the pool of two becomes a pool of three. *)
Lemma respawn_at_tail_keeps_order :
  workers (Scenario.started [] 9229 false true 3)
  = [Handle 1; Handle 2; Handle 3]
  /\ workers (snd (respawn 3 (Scenario.started [] 9229 false true 3)))
     = [Handle 1; Handle 2; Handle 4]
  /\ workers (snd (respawn 3 (Scenario.started [] 9229 false true 3)))
     = <[2%nat := Handle 4]> (workers (Scenario.started [] 9229 false true 3))
  /\ workers (snd (on_message 1 (JObj [("type", "close")%string])
                              (Scenario.started [] 9229 false true 2)))
     = [Handle 2; Handle 3]
  /\ workers (snd (respawn 1
                     (snd (on_message 1 (JObj [("type", "close")%string])
                                      (Scenario.started [] 9229 false true 2)))))
     = [Handle 2; Handle 3; Handle 4]
  /\ length (workers (snd (respawn 1
                     (snd (on_message 1 (JObj [("type", "close")%string])
                                      (Scenario.started [] 9229 false true 2))))))
     <> length (workers (snd (on_message 1 (JObj [("type", "close")%string])
                                        (Scenario.started [] 9229 false true 2)))).
Proof. vm_compute. repeat split; discriminate. Qed.

(** The replacement takes the tail also when the dead worker stood at
    the head: the order of the rotation changes. *)
Example respawn_of_head :
  workers (Scenario.started [] 9229 false true 3)
  = [Handle 1; Handle 2; Handle 3]
  /\ workers (snd (respawn 1 (Scenario.started [] 9229 false true 3)))
     = [Handle 2; Handle 3; Handle 4].
Proof. vm_compute. split; reflexivity. Qed.

(** A handle that has already left the list (its worker announced
    [close] before it exited) is not found, nothing is removed and the
    list grows by the replacement. *)
Lemma respawn_absent_grows m w :
  Handle w ∉ workers m ->
  exists m',
    respawn w m = (inr tt, m')
    /\ workers m' = workers m ++ [Handle (S (processUniqueId m))].
Proof.
  intros Hnin. rewrite (respawn_absent m w Hnin).
  destruct (spawnWorker_spec m) as (m' & Hrun & Hws & _).
  exists m'. split; assumption.
Qed.

(** Without respawn the ['exit'] listener does nothing at all. *)
Lemma on_exit_without_respawn m w code :
  needRespawn m = false -> on_exit w code m = (inr tt, m).
Proof.
  intros Hr. unfold on_exit, bind, get. now rewrite Hr.
Qed.

(** With respawn the dead worker leaves the list and a live
    replacement joins it. *)
Lemma on_exit_with_respawn m w code :
  needRespawn m = true ->
  Handle w ∈ workers m ->
  NoDup (workers m) ->
  (w <= processUniqueId m)%nat ->
  exists m',
    on_exit w code m = (inr tt, m')
    /\ (Handle w ∉ workers m')
    /\ (Handle (S (processUniqueId m)) ∈ workers m')
    /\ live m' (Handle (S (processUniqueId m))) = true
    /\ length (workers m') = length (workers m).
Proof.
  intros Hr Hin Hnd Hle.
  destruct (indexOf_elem _ _ Hin) as (i & Hi & Hat & _).
  destruct (respawn_found m w i Hi) as (m' & Hrun & Hws & Hlive).
  exists m'. unfold on_exit, bind, get. rewrite Hr.
  split; [exact Hrun |]. rewrite Hws.
  split; [| split; [| split; [exact Hlive |]]].
  - rewrite delete_take_drop.
    rewrite <- (take_drop_middle _ _ _ Hat) in Hnd.
    apply NoDup_app in Hnd as (_ & Hl & Hnd).
    apply NoDup_cons in Hnd as (Hr' & _).
    rewrite !not_elem_of_app. repeat split.
    + intros Hl'. exact (Hl _ Hl' ltac:(left)).
    + exact Hr'.
    + rewrite list_elem_of_singleton. intros [= ->]. lia.
  - apply elem_of_app. right. now apply list_elem_of_singleton.
  - rewrite length_app, length_delete by (rewrite Hat; eauto).
    cbn. apply lookup_lt_Some in Hat. lia.
Qed.

(** A worker that announces [close] and exits afterwards is respawned
    twice: the second time its handle is no longer found, and the pool
    of two becomes a pool of three. *)
Example close_then_exit :
  workers (Scenario.started [] 9229 false true 2) = [Handle 1; Handle 2]
  /\ workers (snd ((on_message 1 (JObj [("type", "close")%string]) ;;
                    exit_event 1 0)
                     (Scenario.started [] 9229 false true 2)))
     = [Handle 2; Handle 3; Handle 4].
Proof. vm_compute. split; reflexivity. Qed.

(** C1 at the configuration of the example program (two workers,
    [respawn: false]): worker 1 exits, the listener returns without
    touching the routing list, and the dead handle, whose channel no
    longer reports connected, stays in the rotation; of the next three
    connections the first and the third are dropped. *)
Theorem exit_without_respawn_keeps_dead_worker :
  needRespawn Scenario.example = false
  /\ workers Scenario.example = [Handle 1; Handle 2]
  /\ workers (snd (exit_event 1 0 Scenario.example)) = [Handle 1; Handle 2]
  /\ connected <$> children (snd (exit_event 1 0 Scenario.example)) !! 1%nat
     = Some false
  /\ trace (snd (serve [Scenario.client 1 "10.0.0.7";
                        Scenario.client 2 "10.0.0.7";
                        Scenario.client 3 "10.0.0.7"]
                       (snd (exit_event 1 0 Scenario.example))))
     = [LogError (Error "Can't send message to worker");
        SocketEmit (Scenario.client 1 "10.0.0.7") "close";
        SocketEnd (Scenario.client 1 "10.0.0.7");
        Send 2 "balancing" (Scenario.client 2 "10.0.0.7");
        LogError (Error "Can't send message to worker");
        SocketEmit (Scenario.client 3 "10.0.0.7") "close";
        SocketEnd (Scenario.client 3 "10.0.0.7")].
Proof. vm_compute. repeat split. Qed.

(** C5 near the top of the port range: a master debugging on port
    65534 gives its first two children the same port 65535, and the
    third one port 65536, above [maxPort]. *)
Theorem debug_ports_collide_below_maxPort :
  inspectPort_of 65534 1 = 65535
  /\ inspectPort_of 65534 2 = 65535
  /\ inspectPort_of 65534 3 = 65536
  /\ execArgv <$> children
       (Scenario.started ["--inspect=65534"%string] 65534 false false 3)
       !! 1%nat
     = Some ["--inspect=65534"; "--inspect-brk=65535"]%string
  /\ execArgv <$> children
       (Scenario.started ["--inspect=65534"%string] 65534 false false 3)
       !! 2%nat
     = Some ["--inspect=65534"; "--inspect-brk=65535"]%string
  /\ execArgv <$> children
       (Scenario.started ["--inspect=65534"%string] 65534 false false 3)
       !! 3%nat
     = Some ["--inspect=65534"; "--inspect-brk=65536"]%string.
Proof. vm_compute. repeat split. Qed.

(** C8 with two [--inspect-brk] arguments next to each other: removing
    the first moves the second into the index just tested, the loop
    steps past it, and the child keeps it beside the appended one. *)
Theorem adjacent_inspect_brk_survives :
  splice_inspect_brk ["--inspect-brk"; "--inspect-brk=9229"]%string
  = ["--inspect-brk=9229"%string]
  /\ execArgv <$> children
       (Scenario.started ["--inspect-brk"; "--inspect-brk=9229"]%string
                         9229 false false 1)
       !! 1%nat
     = Some ["--inspect-brk=9229"; "--inspect-brk=9230"]%string.
Proof. vm_compute. split; reflexivity. Qed.

(** The scenario of the specification: a master started with
    [--inspect-brk=9229] and two workers. *)
Example debug_port_offsetting :
  execArgv <$> children
    (Scenario.started ["--inspect-brk=9229"%string] 9229 false false 2)
    !! 1%nat
  = Some ["--inspect-brk=9230"%string]
  /\ execArgv <$> children
       (Scenario.started ["--inspect-brk=9229"%string] 9229 false false 2)
       !! 2%nat
     = Some ["--inspect-brk=9231"%string].
Proof. vm_compute. split; reflexivity. Qed.

End SupervisorClaims.

(** ** The master's loop *)
Section LoopFacts.

Import Master Loop.
Local Open Scope cluster_scope.

(** [spawnWorker] with the child it stores. *)
Lemma spawnWorker_child m :
  exists m',
    spawnWorker m = (inr tt, m')
    /\ workers m' = workers m ++ [Handle (S (processUniqueId m))]
    /\ processUniqueId m' = S (processUniqueId m)
    /\ children m'
       = <[S (processUniqueId m) :=
             Child (child_execArgv m)
                   (<["NODE_UNIQUE_ID"%string :=
                        show (Z.of_nat (S (processUniqueId m)))]>
                      (env m ∪ process_env m))
                   true true]> (children m)
    /\ env m' = env m
    /\ process_env m' = process_env m
    /\ needRespawn m' = needRespawn m
    /\ trace m' = trace m.
Proof.
  destruct m as [o id args port penv perm cnt resp e sd ws ch tr].
  unfold spawnWorker, fork, ch_fork, child_execArgv, bind, get, modify, ret.
  cbn [env process_env process_execArgv processUniqueId process_debugPort
       debugPortOffset set_processUniqueId set_debugPortOffset].
  destruct (existsb inspectRegex_match args); cbn;
    (eexists; split; [reflexivity |]; cbn; repeat split).
Qed.

(** [respawn] always returns: it drops at most the one entry it finds
    and appends the new child. *)
Lemma respawn_spec m w :
  exists m' ws',
    respawn w m = (inr tt, m')
    /\ workers m' = ws' ++ [Handle (S (processUniqueId m))]
    /\ ((Handle w ∉ workers m) /\ ws' = workers m
        \/ exists i, workers m !! i = Some (Handle w)
                     /\ (Handle w ∉ take i (workers m))
                     /\ ws' = delete i (workers m))
    /\ processUniqueId m' = S (processUniqueId m)
    /\ (exists c, children m' = <[S (processUniqueId m) := c]> (children m))
    /\ needRespawn m' = needRespawn m
    /\ trace m' = trace m.
Proof.
  destruct (decide (Handle w ∈ workers m)) as [Hin | Hnin].
  - destruct (indexOf_elem _ _ Hin) as (i & Hi & Hat & Hbefore).
    rewrite (respawn_present m w i Hi).
    destruct (spawnWorker_child (set_workers (delete i (workers m)) m))
      as (m' & Hrun & Hws & Hid & Hch & _ & _ & Hr & Htr).
    exists m', (delete i (workers m)).
    split; [exact Hrun |]. split; [rewrite Hws; now destruct m |].
    split; [right; exists i; auto |].
    split; [rewrite Hid; now destruct m |].
    split; [eexists; rewrite Hch; now destruct m |].
    split; [rewrite Hr | rewrite Htr]; now destruct m.
  - rewrite (respawn_absent m w Hnin).
    destruct (spawnWorker_child m)
      as (m' & Hrun & Hws & Hid & Hch & _ & _ & Hr & Htr).
    exists m', (workers m). repeat (split; [assumption |]).
    split; [left; auto |]. split; [assumption |].
    split; [eexists; exact Hch |]. split; assumption.
Qed.

(** [balance] in every state: it returns, and only the routing list
    and the trace can differ afterwards. *)
Lemma balance_spec sock m :
  exists worker ws' evs,
    balance sock m
    = (inr tt, set_trace (trace m ++ evs) (set_workers ws' m))
    /\ select sock m = (inr worker, set_workers ws' m)
    /\ (if isPermanentConnection m then ws' = workers m
        else ws' = tail (workers m) ++ [default Undefined (head (workers m))])
    /\ match worker with
       | Handle w =>
           if live m worker then evs = [Send w "balancing" sock]
           else exists e,
               evs = [LogError e; SocketEmit sock "close"; SocketEnd sock]
       | Undefined =>
           exists e,
             evs = [LogError e; SocketEmit sock "close"; SocketEnd sock]
       end.
Proof.
  assert (Hsel : exists worker ws',
             select sock m = (inr worker, set_workers ws' m)
             /\ (if isPermanentConnection m then ws' = workers m
                 else ws' = tail (workers m)
                            ++ [default Undefined (head (workers m))])).
  { destruct (isPermanentConnection m) eqn:Hp.
    - eexists _, (workers m). rewrite set_workers_same.
      split; [apply (select_sticky sock m Hp) | reflexivity].
    - rewrite (select_rr sock m Hp).
      destruct (workers m) as [| x ws]; eexists _, _; split; reflexivity. }
  destruct Hsel as (worker & ws' & Hsel & Hws).
  destruct (balance_outcome sock m _ _ Hsel) as (evs & Hbal & Hevs).
  exists worker, ws', evs.
  split; [rewrite Hbal; now destruct m |].
  split; [exact Hsel |]. split; [exact Hws |].
  assert (Hl : live (set_workers ws' m) worker = live m worker)
    by now destruct m.
  now rewrite Hl in Hevs.
Qed.

Lemma disconnect_spec w m :
  disconnect w m
  = (inr tt,
     set_children
       (alter (fun c => Child (execArgv c) (child_env c) false false)
              w (children m)) m).
Proof. reflexivity. Qed.

Lemma exit_event_unfold w code m :
  exit_event w code m
  = on_exit w code
      (set_children
         (alter (fun c => Child (execArgv c) (child_env c) false false)
                w (children m)) m).
Proof. reflexivity. Qed.

(** A message whose [type] reads [close] is no null message: the
    listener gets past the read and respawns when the policy is on. *)
Lemma on_message_close w msg m :
  msg_type msg = Some "close"%string ->
  on_message w msg m = if needRespawn m then respawn w m else (inr tt, m).
Proof.
  intros Hmsg. destruct msg as [s | fields |]; try discriminate.
  unfold on_message, read_type, bind, ret, get. rewrite Hmsg.
  destruct (decide (Some "close"%string = Some "close"%string));
    [now destruct (needRespawn m) | contradiction].
Qed.

Lemma repeat_spawn_grows n : forall m,
  exists m',
    repeat_M n spawnWorker m = (inr tt, m')
    /\ (length (workers m) <= length (workers m'))%nat
    /\ (processUniqueId m <= processUniqueId m')%nat.
Proof.
  induction n as [| n IH]; intros m.
  - exists m. cbn. repeat split; lia.
  - destruct (spawnWorker_child m) as (m1 & Hrun & Hws & Hid & _).
    destruct (IH m1) as (m' & Hrun' & Hlen & Hid').
    exists m'. cbn [repeat_M]. unfold bind. rewrite Hrun.
    split; [exact Hrun' |]. rewrite Hws, length_app in Hlen. cbn in Hlen.
    split; lia.
Qed.

(** One listener: it returns, unless it is the message listener on a
    null message, which throws and leaves the state alone; the routing
    list is no shorter and the id counter no smaller afterwards. *)
Lemma dispatch_step i m :
  exists r m',
    dispatch i m = (r, m')
    /\ (if null_message i then
          r = inl (TypeError "Cannot read properties of null (reading 'type')")
          /\ m' = m
        else r = inr tt)
    /\ (length (workers m) <= length (workers m'))%nat
    /\ (processUniqueId m <= processUniqueId m')%nat.
Proof.
  assert (Hok : (exists m'', dispatch i m = (inr tt, m'')
                            /\ (length (workers m) <= length (workers m''))%nat
                            /\ (processUniqueId m <= processUniqueId m'')%nat) ->
                null_message i = false ->
                exists r m',
                  dispatch i m = (r, m')
                  /\ (if null_message i then
                        r = inl (TypeError
                                   "Cannot read properties of null (reading 'type')")
                        /\ m' = m
                      else r = inr tt)
                  /\ (length (workers m) <= length (workers m'))%nat
                  /\ (processUniqueId m <= processUniqueId m')%nat).
  { intros (m'' & Hrun & Hlen & Hid) ->. exists (inr tt), m''. auto. }
  destruct i as [| sock | w code | w msg | w err];
    try (apply Hok; [clear Hok | reflexivity]); cbn [dispatch].
  - unfold on_listening, bind, get. apply repeat_spawn_grows.
  - destruct (balance_spec sock m) as (worker & ws' & evs & Hbal & _ & Hws & _).
    eexists. split; [exact Hbal |].
    split; [| now destruct m].
    replace (workers (set_trace (trace m ++ evs) (set_workers ws' m)))
      with ws' by now destruct m.
    destruct (isPermanentConnection m); subst ws'; [lia |].
    rewrite length_app. destruct (workers m); cbn; lia.
  - rewrite exit_event_unfold.
    set (m1 := set_children _ m).
    assert (Hw1 : workers m1 = workers m) by now destruct m.
    assert (Hi1 : processUniqueId m1 = processUniqueId m) by now destruct m.
    rewrite <- Hw1, <- Hi1. clearbody m1.
    unfold on_exit, bind, get. destruct (needRespawn m1).
    + destruct (respawn_spec m1 w)
        as (m' & ws' & Hrun & Hws & Hcase & Hid & _).
      exists m'. split; [exact Hrun |]. rewrite Hws, Hid, length_app.
      split; [| lia]. cbn.
      destruct Hcase as [[_ ->] | (i & Hat & _ & ->)]; [lia |].
      rewrite length_delete by (rewrite Hat; eauto). lia.
    + exists m1. split; [reflexivity |]. lia.
  - destruct (decide (msg = JNull)) as [-> | Hmsg].
    { exists (inl (TypeError "Cannot read properties of null (reading 'type')")), m.
      cbn. repeat split; lia. }
    apply Hok; [clear Hok; cbn [dispatch] | now destruct msg].
    assert (Hread : read_type msg m = (inr (msg_type msg), m))
      by now destruct msg.
    unfold on_message. unfold bind at 1. rewrite Hread. unfold bind, get.
    destruct (decide (msg_type msg = Some "close"%string));
      [| exists m; repeat split; lia].
    destruct (needRespawn m); [| exists m; repeat split; lia].
    destruct (respawn_spec m w) as (m' & ws' & Hrun & Hws & Hcase & Hid & _).
    exists m'. split; [exact Hrun |]. rewrite Hws, Hid, length_app.
    split; [| lia]. cbn.
    destruct Hcase as [[_ ->] | (i & Hat & _ & ->)]; [lia |].
    rewrite length_delete by (rewrite Hat; eauto). lia.
  - eexists. split; [reflexivity |]. destruct m; cbn. lia.
Qed.

Lemma consistent_same m m' :
  workers m' = workers m ->
  (forall k, is_Some (children m' !! k) <-> is_Some (children m !! k)) ->
  processUniqueId m' = processUniqueId m ->
  consistent m -> consistent m'.
Proof.
  intros Hw Hc Hi (Hnd & Hin & Hkeys). unfold consistent.
  rewrite Hw, Hi. split; [exact Hnd |]. split.
  - intros w Hw'. apply Hc, Hin, Hw'.
  - intros w Hw'. apply Hkeys, Hc, Hw'.
Qed.

Lemma respawn_consistent m w :
  consistent m -> consistent (snd (respawn w m)).
Proof.
  intros (Hnd & Hin & Hkeys).
  destruct (respawn_spec m w)
    as (m' & ws' & Hrun & Hws & Hcase & Hid & (c & Hch) & _).
  rewrite Hrun. cbn [snd]. unfold consistent. rewrite Hws, Hid, Hch.
  assert (Hsub : forall x, x ∈ ws' -> x ∈ workers m).
  { destruct Hcase as [[_ ->] | (i & _ & _ & ->)]; [auto |].
    intros x. apply list_elem_of_delete_inv. }
  assert (Hnd' : NoDup ws').
  { destruct Hcase as [[_ ->] | (i & _ & _ & ->)]; [exact Hnd |].
    eapply sublist_NoDup; [exact Hnd | apply sublist_delete]. }
  split; [| split].
  - apply NoDup_app. split; [exact Hnd' |]. split; [| apply NoDup_singleton].
    intros x Hx Hx'. apply list_elem_of_singleton in Hx'. subst x.
    apply Hsub, Hin, Hkeys in Hx. lia.
  - intros k Hk. apply elem_of_app in Hk as [Hk | Hk].
    + apply lookup_insert_is_Some. right.
      pose proof (Hin k (Hsub _ Hk)) as Hs. split; [| exact Hs].
      apply Hkeys in Hs. lia.
    + apply list_elem_of_singleton in Hk. injection Hk as ->.
      rewrite lookup_insert_eq. eauto.
  - intros k Hk. apply lookup_insert_is_Some in Hk as [<- | [_ Hk]]; [lia |].
    apply Hkeys in Hk. lia.
Qed.

Lemma spawnWorker_consistent m :
  consistent m -> consistent (snd (spawnWorker m)).
Proof.
  intros (Hnd & Hin & Hkeys).
  destruct (spawnWorker_child m) as (m' & Hrun & Hws & Hid & Hch & _).
  rewrite Hrun. cbn [snd]. unfold consistent. rewrite Hws, Hid, Hch.
  split; [| split].
  - apply NoDup_app. split; [exact Hnd |]. split; [| apply NoDup_singleton].
    intros x Hx Hx'. apply list_elem_of_singleton in Hx'. subst x.
    apply Hin, Hkeys in Hx. lia.
  - intros k Hk. apply elem_of_app in Hk as [Hk | Hk].
    + apply lookup_insert_is_Some. right.
      pose proof (Hin k Hk) as Hs. split; [| exact Hs].
      apply Hkeys in Hs. lia.
    + apply list_elem_of_singleton in Hk. injection Hk as ->.
      rewrite lookup_insert_eq. eauto.
  - intros k Hk. apply lookup_insert_is_Some in Hk as [<- | [_ Hk]]; [lia |].
    apply Hkeys in Hk. lia.
Qed.

Lemma repeat_spawn_consistent n : forall m,
  consistent m -> consistent (snd (repeat_M n spawnWorker m)).
Proof.
  induction n as [| n IH]; intros m Hm; [exact Hm |].
  cbn [repeat_M]. unfold bind.
  pose proof (spawnWorker_consistent m Hm) as H1.
  destruct (spawnWorker_child m) as (m1 & Hrun & _).
  rewrite Hrun in *. now apply IH.
Qed.

Lemma dispatch_consistent i m :
  consistent m -> consistent (snd (dispatch i m)).
Proof.
  intros Hm. destruct i as [| sock | w code | w msg | w err]; cbn [dispatch].
  - unfold on_listening, bind, get. now apply repeat_spawn_consistent.
  - destruct (balance_spec sock m) as (worker & ws' & evs & Hbal & _ & Hws & _).
    rewrite Hbal. cbn [snd]. destruct Hm as (Hnd & Hin & Hkeys).
    assert (Hperm : isPermanentConnection m = false -> workers m <> [] ->
                    ws' ≡ₚ workers m).
    { intros Hp Hne. rewrite Hp in Hws. subst ws'.
      destruct (workers m) as [| x rest]; [contradiction |]. cbn.
      symmetry. apply Permutation_cons_append. }
    unfold consistent.
    replace (workers (set_trace (trace m ++ evs) (set_workers ws' m)))
      with ws' by now destruct m.
    replace (children (set_trace (trace m ++ evs) (set_workers ws' m)))
      with (children m) by now destruct m.
    replace (processUniqueId (set_trace (trace m ++ evs) (set_workers ws' m)))
      with (processUniqueId m) by now destruct m.
    split; [| split; [| exact Hkeys]].
    + destruct (isPermanentConnection m) eqn:Hp; [now subst ws' |].
      destruct (workers m) as [| x rest] eqn:Hwm.
      * subst ws'. cbn. apply NoDup_singleton.
      * rewrite (Hperm eq_refl); [exact Hnd | discriminate].
    + intros k Hk. apply Hin.
      destruct (isPermanentConnection m) eqn:Hp; [now subst ws' |].
      destruct (workers m) as [| x rest] eqn:Hwm.
      * subst ws'. cbn in Hk. apply list_elem_of_singleton in Hk. discriminate.
      * rewrite <- (Hperm eq_refl); [exact Hk | discriminate].
  - rewrite exit_event_unfold.
    set (m1 := set_children _ m).
    assert (H1 : consistent m1).
    { apply (consistent_same m); [now destruct m | | now destruct m | exact Hm].
      intros k. replace (children m1)
        with (alter (fun c => Child (execArgv c) (child_env c) false false)
                    w (children m)) by now destruct m.
      apply lookup_alter_is_Some. }
    clearbody m1. unfold on_exit, bind, get.
    destruct (needRespawn m1); [now apply respawn_consistent | exact H1].
  - destruct (decide (msg = JNull)) as [-> | Hmsg]; [exact Hm |].
    assert (Hread : read_type msg m = (inr (msg_type msg), m))
      by now destruct msg.
    unfold on_message. unfold bind at 1. rewrite Hread. unfold bind, get.
    destruct (decide (msg_type msg = Some "close"%string)); [| exact Hm].
    destruct (needRespawn m); [now apply respawn_consistent | exact Hm].
  - cbn. apply (consistent_same m); first [exact Hm | now destruct m].
Qed.

Lemma not_elem_of_delete_NoDup (l : list slot) i x :
  NoDup l -> l !! i = Some x -> x ∉ delete i l.
Proof.
  intros Hnd Hat. rewrite delete_take_drop.
  rewrite <- (take_drop_middle _ _ _ Hat) in Hnd.
  apply NoDup_app in Hnd as (_ & Hl & Hnd).
  apply NoDup_cons in Hnd as (Hr & _).
  rewrite not_elem_of_app. split; [| exact Hr].
  intros Hl'. exact (Hl _ Hl' ltac:(left)).
Qed.

(** Moving the head to the tail is a rotation by one more. *)
Lemma rotate_step (ws : list slot) n :
  ws <> [] ->
  tail (rotate n ws) ++ [default Undefined (head (rotate n ws))]
  = rotate (S n) ws.
Proof.
  intros Hne. unfold rotate.
  assert (HM : (length ws <> 0)%nat) by (destruct ws; [contradiction | cbn; lia]).
  remember (length ws) as M eqn:HMdef.
  pose proof (Nat.mod_upper_bound n M HM) as Hr.
  pose proof (Nat.div_mod_eq n M) as Hn.
  remember (n / M)%nat as q eqn:Hq. remember (n mod M)%nat as r eqn:Hrdef.
  clear Hq Hrdef.
  destruct (lookup_lt_is_Some_2 ws r ltac:(lia)) as [x Hx].
  rewrite (drop_S _ _ _ Hx). cbn. rewrite <- app_assoc.
  rewrite <- (take_S_r _ _ _ Hx).
  destruct (decide (S r < M)%nat) as [Hlt | Hge].
  - replace (S n mod M)%nat with (S r); [reflexivity |].
    apply (Nat.mod_unique (S n) M q (S r)); lia.
  - replace (S n mod M)%nat with 0%nat.
    + rewrite drop_ge, take_ge by lia. now rewrite drop_0, take_0, app_nil_r.
    + apply (Nat.mod_unique (S n) M (S q) 0); [lia |].
      rewrite Nat.mul_succ_r. lia.
Qed.

Lemma head_rotate (ws : list slot) n :
  ws <> [] -> head (rotate n ws) = ws !! (n mod length ws)%nat.
Proof.
  intros Hne. unfold rotate.
  assert (HM : (length ws <> 0)%nat) by (destruct ws; [contradiction | cbn; lia]).
  pose proof (Nat.mod_upper_bound n (length ws) HM) as Hr.
  destruct (lookup_lt_is_Some_2 ws _ Hr) as [x Hx].
  now rewrite (drop_S _ _ _ Hx), Hx.
Qed.

Lemma serve_rotation socks : forall m n ws,
  isPermanentConnection m = false ->
  ws <> [] ->
  workers m = rotate n ws ->
  exists m',
    serve socks m = (inr tt, m')
    /\ workers m' = rotate (n + length socks) ws
    /\ children m' = children m
    /\ isPermanentConnection m' = false.
Proof.
  induction socks as [| sock socks IH]; intros m n ws Hp Hne Hw.
  - exists m. cbn. rewrite Nat.add_0_r. auto.
  - destruct (balance_spec sock m) as (worker & ws' & evs & Hbal & _ & Hws & _).
    rewrite Hp, Hw, rotate_step in Hws by assumption.
    set (m1 := set_trace (trace m ++ evs) (set_workers ws' m)) in *.
    destruct (IH m1 (S n) ws) as (m' & Hrun & Hw' & Hch & Hp');
      [now destruct m | assumption | subst ws'; now destruct m |].
    exists m'. cbn [serve]. unfold bind. rewrite Hbal.
    split; [exact Hrun |].
    split; [rewrite Hw'; f_equal; cbn; lia |].
    split; [rewrite Hch; now destruct m | exact Hp'].
Qed.

End LoopFacts.

Section LoopProperties.

Import Master Loop.
Local Open Scope cluster_scope.

(** X1.  One listener of the master throws: the message listener, when
    the message is null or undefined, where reading [msg.type] raises a
    TypeError that nothing in the listener catches.  So a run of the
    loop over any sequence of listening events, connections, exits,
    messages and errors returns when no such message is among them, and
    ends with that TypeError at the first one otherwise; either way the
    routing list never gets shorter and the unique id counter never
    goes back. *)
Theorem run_throws_only_on_null_message inputs : forall m,
  fst (run inputs m)
  = (if existsb null_message inputs
     then inl (TypeError "Cannot read properties of null (reading 'type')")
     else inr tt)
  /\ (length (workers m) <= length (workers (snd (run inputs m))))%nat
  /\ (processUniqueId m <= processUniqueId (snd (run inputs m)))%nat.
Proof.
  induction inputs as [| i inputs IH]; intros m.
  - cbn. repeat split; lia.
  - destruct (dispatch_step i m) as (r & m1 & Hrun & Hr & Hlen & Hid).
    cbn [run existsb]. unfold bind. rewrite Hrun.
    destruct (null_message i).
    + destruct Hr as [-> ->]. cbn. repeat split; lia.
    + subst r. destruct (IH m1) as (Hfst & Hlen' & Hid'). cbn [orb].
      split; [exact Hfst |]. split; lia.
Qed.

Lemma run_consistent inputs : forall m,
  consistent m -> consistent (snd (run inputs m)).
Proof.
  induction inputs as [| i inputs IH]; intros m Hm; [exact Hm |].
  pose proof (dispatch_consistent i m Hm) as H1.
  cbn [run]. unfold bind.
  destruct (dispatch i m) as [[e | []] m1]; [exact H1 | now apply IH].
Qed.

(** X2.  In every state the master reaches from [start], after any
    sequence of events (the listening event that spawns the workers
    among them), whatever the port: no handle is twice in the routing
    list, every handle in it is a child the master has forked, and
    every child forked carries an id between 1 and the current
    counter. *)
Theorem reachable_consistent this p r port inputs :
  consistent
    (snd (run inputs
            (snd (startCluster r port (Cluster.master_of this p))))).
Proof.
  apply run_consistent.
  unfold startCluster, listen, bind, modify, get, emit, modify, throw.
  cbn [fst snd].
  destruct (valid_port port); cbn [snd]; unfold consistent; cbn;
    (split; [constructor |]; split;
     [intros w Hw; now apply elem_of_nil in Hw
     | intros w [c Hc]; now rewrite lookup_empty in Hc]).
Qed.

(** X3.  Round-robin keeps rotating whatever happens to the sockets:
    on a non-empty routing list, after K connections (sent or dropped
    alike) the list is the initial one rotated by K, the children are
    untouched, and the next connection is offered to the entry at index
    [K mod M] of the initial list. *)
Theorem round_robin_rotation socks m :
  isPermanentConnection m = false ->
  workers m <> [] ->
  workers (snd (serve socks m)) = rotate (length socks) (workers m)
  /\ children (snd (serve socks m)) = children m
  /\ forall sock,
       Some (fst (select sock (snd (serve socks m))))
       = inr <$> workers m !! (length socks mod length (workers m))%nat.
Proof.
  intros Hp Hne.
  assert (H0 : workers m = rotate 0 (workers m)).
  { unfold rotate. rewrite Nat.Div0.mod_0_l, drop_0, take_0.
    now rewrite app_nil_r. }
  destruct (serve_rotation socks m 0 (workers m) Hp Hne H0)
    as (m' & Hrun & Hw & Hch & Hp').
  rewrite Hrun. cbn [snd]. cbn in Hw.
  split; [exact Hw |]. split; [exact Hch |].
  intros sock. rewrite (select_rr sock m' Hp'), Hw.
  rewrite <- head_rotate by assumption.
  destruct (rotate (length socks) (workers m)) eqn:Hrot; [| reflexivity].
  apply (f_equal length) in Hrot. rewrite length_rotate in Hrot.
  destruct (workers m); [contradiction | discriminate].
Qed.

Lemma round_robin_rotation_witness :
  isPermanentConnection (snd (exit_event 1 0 Scenario.example)) = false
  /\ workers (snd (exit_event 1 0 Scenario.example)) <> []
  /\ workers (snd (serve [Scenario.client 1 "10.0.0.7";
                          Scenario.client 2 "10.0.0.7";
                          Scenario.client 3 "10.0.0.7"]
                         (snd (exit_event 1 0 Scenario.example))))
     = rotate 3 (workers (snd (exit_event 1 0 Scenario.example))).
Proof.
  assert (Hp : isPermanentConnection (snd (exit_event 1 0 Scenario.example))
               = false) by reflexivity.
  assert (Hne : workers (snd (exit_event 1 0 Scenario.example)) <> [])
    by (vm_compute; discriminate).
  split; [exact Hp |]. split; [exact Hne |].
  exact (proj1 (round_robin_rotation
                  [Scenario.client 1 "10.0.0.7"; Scenario.client 2 "10.0.0.7";
                   Scenario.client 3 "10.0.0.7"]
                  (snd (exit_event 1 0 Scenario.example)) Hp Hne)).
Defined.

(** X4.  Every accepted socket is disposed of exactly once, in the
    order of arrival: in any state and either mode, the events a run of
    connections adds to the trace send or end each socket once, none
    twice and none not at all. *)
Theorem serve_settles_every_socket socks : forall m,
  exists m' evs,
    serve socks m = (inr tt, m')
    /\ trace m' = trace m ++ evs
    /\ settled evs = socks.
Proof.
  induction socks as [| sock socks IH]; intros m.
  - exists m, []. cbn. now rewrite app_nil_r.
  - destruct (balance_spec sock m)
      as (worker & ws' & evs & Hbal & _ & _ & Hevs).
    destruct (IH (set_trace (trace m ++ evs) (set_workers ws' m)))
      as (m' & evs' & Hrun & Htr & Hset).
    exists m', (evs ++ evs'). cbn [serve]. unfold bind. rewrite Hbal.
    split; [exact Hrun |].
    split; [rewrite Htr; destruct m; cbn; now rewrite app_assoc |].
    unfold settled in *. rewrite omap_app, Hset. f_equal.
    destruct worker as [| w].
    + destruct Hevs as [e ->]. reflexivity.
    + destruct (live m (Handle w)); [now subst evs |].
      destruct Hevs as [e ->]. reflexivity.
Qed.

(** X5.  Sticky balancing on an empty routing list: the index is not a
    number, no worker is found, the socket is closed and ended, and the
    list stays empty. *)
Theorem balance_empty_sticky sock m :
  isPermanentConnection m = true ->
  workers m = [] ->
  exists text,
    balance sock m
    = (inr tt,
       set_trace (trace m ++ [LogError (TypeError text);
                              SocketEmit sock "close"; SocketEnd sock]) m).
Proof.
  intros Hp Hw. destruct m as [? ? ? ? ? ? ? ? ? seed0 ws ch tr].
  simpl in Hp, Hw. subst.
  eexists. unfold balance, bind at 1. rewrite select_sticky by reflexivity.
  cbn [workers seed].
  change (worker_at [] (Hash.hash seed0 (addr_of sock))) with Undefined.
  cbv [get_connected try_catch bind throw emit modify set_trace].
  cbn. now rewrite <- !app_assoc.
Qed.

Lemma balance_empty_sticky_witness :
  isPermanentConnection (Scenario.initial [] 9229 true true 2) = true
  /\ workers (Scenario.initial [] 9229 true true 2) = []
  /\ exists text,
       balance (Scenario.client 1 "10.0.0.7")
               (Scenario.initial [] 9229 true true 2)
       = (inr tt,
          set_trace (trace (Scenario.initial [] 9229 true true 2)
                     ++ [LogError (TypeError text);
                         SocketEmit (Scenario.client 1 "10.0.0.7") "close";
                         SocketEnd (Scenario.client 1 "10.0.0.7")])
                    (Scenario.initial [] 9229 true true 2)).
Proof.
  split; [reflexivity |]. split; [reflexivity |].
  apply (balance_empty_sticky (Scenario.client 1 "10.0.0.7")
           (Scenario.initial [] 9229 true true 2)); reflexivity.
Defined.

End LoopProperties.

(** ** Numbers as text, patterns *)
Section TextFacts.

Import Master.

(** [`${n}`] tells integers apart. *)
Lemma show_inj a b : show a = show b -> a = b.
Proof.
  assert (Hnn : forall n, Z.to_int n <> Decimal.Pos Decimal.Nil
                          /\ Z.to_int n <> Decimal.Neg Decimal.Nil).
  { intros [| p | p]; cbn; split; try discriminate;
      intros [= H]; exact (Unsigned.to_uint_nonnil p H). }
  unfold show. intros H.
  apply (f_equal NilZero.int_of_string) in H.
  rewrite !NilZero.isi in H by apply Hnn.
  injection H as H. apply (f_equal Z.of_int) in H.
  now rewrite !DecimalZ.of_to in H.
Qed.

Lemma show_nonempty n : exists c s, show n = String c s.
Proof.
  unfold show. destruct n as [| p | p]; cbn.
  - eauto.
  - pose proof (Unsigned.to_uint_nonnil p) as Hp.
    destruct (Pos.to_uint p); [contradiction | cbn; eauto ..].
  - eauto.
Qed.

Lemma prefix_app a : forall b s,
  String.prefix (a +:+ b) s = true -> String.prefix a s = true.
Proof.
  induction a as [| c a IH]; intros b s H.
  - now destruct s.
  - change (String c a +:+ b) with (String c (a +:+ b)) in H.
    destruct s as [| c' s]; cbn in *; [discriminate |].
    destruct (ascii_dec c c'); [now apply (IH b) | discriminate].
Qed.

Lemma inspectRegex_here_prefix s :
  inspectRegex_here s
  = String.prefix "--inspect" s || String.prefix "--debug-port" s.
Proof.
  unfold inspectRegex_here.
  destruct (String.prefix "--inspect" s) eqn:Hi.
  - now rewrite !orb_true_r.
  - destruct (String.prefix "--inspect-brk" s) eqn:Hb.
    { apply (prefix_app "--inspect" "-brk") in Hb. congruence. }
    destruct (String.prefix "--inspect-port" s) eqn:Hp.
    { apply (prefix_app "--inspect" "-port") in Hp. congruence. }
    reflexivity.
Qed.

(** X6.  The test that switches [fork] to its debugger branch is a
    substring test: an argument matches the pattern exactly when it
    contains [--inspect] or [--debug-port] anywhere; the optional
    [-brk]/[-port] group of the pattern never decides. *)
Theorem inspectRegex_match_includes s :
  inspectRegex_match s = includes "--inspect" s || includes "--debug-port" s.
Proof.
  induction s as [| c s IH].
  - reflexivity.
  - cbn [inspectRegex_match includes]. rewrite IH, inspectRegex_here_prefix.
    destruct (String.prefix "--inspect" (String c s)),
             (String.prefix "--debug-port" (String c s)),
             (includes "--inspect" s), (includes "--debug-port" s);
      reflexivity.
Qed.

End TextFacts.

(** ** Spawning *)
Section SpawnFacts.

Import Master Loop.
Local Open Scope cluster_scope.

Lemma repeat_spawn_workers n : forall m,
  exists m',
    repeat_M n spawnWorker m = (inr tt, m')
    /\ workers m'
       = workers m ++ (Handle <$> seq (S (processUniqueId m)) n)
    /\ processUniqueId m' = (processUniqueId m + n)%nat
    /\ seed m' = seed m
    /\ trace m' = trace m
    /\ needRespawn m' = needRespawn m
    /\ isPermanentConnection m' = isPermanentConnection m.
Proof.
  induction n as [| n IH]; intros m.
  - exists m. cbn. rewrite app_nil_r, Nat.add_0_r. repeat split.
  - cbn [repeat_M]. unfold bind.
    destruct (spawnWorker_spec m)
      as (m1 & Hrun & Hws & Hid & _ & _ & _ & _ & Hr & Hp & Htr).
    assert (Hsd : seed m1 = seed m).
    { revert Hrun. destruct m. unfold spawnWorker, fork, ch_fork, bind, get,
        modify, ret. cbn.
      destruct (existsb _ _); cbn; intros [= <-]; reflexivity. }
    rewrite Hrun.
    destruct (IH m1)
      as (m' & Hrun' & Hws' & Hid' & Hsd' & Htr' & Hr' & Hp').
    exists m'. split; [exact Hrun' |].
    rewrite Hws', Hws, Hid', Hid, Hsd', Htr', Hr', Hp', <- app_assoc. cbn.
    repeat split; try assumption. lia.
Qed.

(** The k-th child of a run of spawns, as the store holds it when the
    run is over. *)
Lemma repeat_spawn_child n : forall m k,
  (k < n)%nat ->
  exists args,
    children (snd (repeat_M n spawnWorker m)) !! (processUniqueId m + S k)%nat
    = Some (Child args
              (<["NODE_UNIQUE_ID"%string :=
                   show (Z.of_nat (processUniqueId m + S k))]>
                 (env m ∪ process_env m))
              true true).
Proof.
  induction n as [| n IH]; intros m k Hk; [lia |].
  cbn [repeat_M]. unfold bind.
  destruct (spawnWorker_child m)
    as (m1 & Hrun & _ & Hid & Hch & He & Hpe & _).
  rewrite Hrun. destruct k as [| k].
  - rewrite repeat_spawn_keeps by lia.
    rewrite Hch, Nat.add_1_r, lookup_insert_eq. eauto.
  - replace (processUniqueId m + S (S k))%nat
      with (processUniqueId m1 + S k)%nat by lia.
    destruct (IH m1 k ltac:(lia)) as (args & Hc).
    exists args. now rewrite Hc, He, Hpe.
Qed.

Lemma append_inj p : forall a b, p +:+ a = p +:+ b -> a = b.
Proof.
  induction p as [| c p IH]; intros a b H; [exact H |].
  change (String c (p +:+ a) = String c (p +:+ b)) in H.
  injection H as H. now apply IH.
Qed.

(** When no two [--inspect-brk] arguments are neighbours, the loop is a
    plain filter. *)
Lemma splice_skip_filter n : forall l,
  (length l <= n)%nat ->
  (forall i a b, l !! i = Some a -> l !! S i = Some b ->
                 includes "--inspect-brk" a = true ->
                 includes "--inspect-brk" b = false) ->
  splice_skip l
  = List.filter (fun a => negb (includes "--inspect-brk" a)) l.
Proof.
  induction n as [| n IH]; intros l Hlen Hadj.
  - destruct l; [reflexivity | cbn in Hlen; lia].
  - destruct l as [| a rest]; [reflexivity |]. cbn [splice_skip List.filter].
    destruct (includes "--inspect-brk" a) eqn:Ha; cbn [negb].
    + destruct rest as [| b rest']; [reflexivity |].
      cbn [List.filter].
      rewrite (Hadj 0%nat a b eq_refl eq_refl Ha). cbn [negb]. f_equal.
      apply IH; [cbn in Hlen; lia |].
      intros i x y Hx Hy. exact (Hadj (S (S i)) x y Hx Hy).
    + f_equal. apply IH; [cbn in Hlen; lia |].
      intros i x y Hx Hy. exact (Hadj (S i) x y Hx Hy).
Qed.

(** The call of [startCluster]: it clears the list, draws the seed and
    calls [listen]; the store of children and the id counter are as
    before. *)
Lemma startCluster_unfold r port m :
  startCluster r port m
  = if valid_port port then
      (inr tt,
       set_trace (trace m ++ [Listen port])
                 (set_seed (Hash.seed_of r) (set_workers [] m)))
    else
      (inl (RangeError "ERR_SOCKET_BAD_PORT"),
       set_seed (Hash.seed_of r) (set_workers [] m)).
Proof.
  unfold startCluster, listen, bind, modify. cbn [fst snd].
  now destruct (valid_port port).
Qed.

(** The ['listening'] callback: [workerCount] spawns in a row. *)
Lemma on_listening_spec m :
  exists m',
    on_listening m = (inr tt, m')
    /\ workers m'
       = workers m ++ (Handle <$> seq (S (processUniqueId m)) (workerCount m))
    /\ Forall (fun x => live m' x = true)
              (Handle <$> seq (S (processUniqueId m)) (workerCount m))
    /\ processUniqueId m' = (processUniqueId m + workerCount m)%nat
    /\ seed m' = seed m
    /\ trace m' = trace m
    /\ needRespawn m' = needRespawn m
    /\ isPermanentConnection m' = isPermanentConnection m.
Proof.
  unfold on_listening, bind, get.
  destruct (repeat_spawn_workers (workerCount m) m)
    as (m' & Hrun & Hws & Hid & Hsd & Htr' & Hr' & Hp').
  exists m'. split; [exact Hrun |]. split; [exact Hws |].
  split; [| auto 6].
  apply Forall_fmap, Forall_forall. intros k Hk.
  apply elem_of_seq in Hk.
  destruct (repeat_spawn_child (workerCount m) m (k - S (processUniqueId m)))
    as (args & Hchild); [lia |].
  rewrite Hrun in Hchild. cbn [snd] in Hchild.
  replace (processUniqueId m + S (k - S (processUniqueId m)))%nat
    with k in Hchild by lia.
  cbn. unfold live. now rewrite Hchild.
Qed.

End SpawnFacts.

Section SpawnProperties.

Import Master Loop.
Local Open Scope cluster_scope.

(** X7.  [startCluster] from any state forks nothing: when it is over
    the routing list is empty, the store of children and the id counter
    are as before, and the seed is the one drawn.  On a port outside
    0..65535 it throws the RangeError of [listen]; otherwise it returns
    with the bind on the port as its one effect.  The workers come with
    the ['listening'] callback: run on that state it returns, and the
    routing list is then exactly the [workerCount] children just
    forked, in the order of their ids, each with a connected channel,
    with the seed kept and nothing sent or logged on the way. *)
Theorem startCluster_spawns r port m :
  let res := fst (startCluster r port m) in
  let m0 := snd (startCluster r port m) in
  workers m0 = []
  /\ children m0 = children m
  /\ processUniqueId m0 = processUniqueId m
  /\ seed m0 = Hash.seed_of r
  /\ if valid_port port then
       res = inr tt
       /\ trace m0 = trace m ++ [Listen port]
       /\ exists m',
           on_listening m0 = (inr tt, m')
           /\ workers m'
              = Handle <$> seq (S (processUniqueId m)) (workerCount m)
           /\ length (workers m') = workerCount m
           /\ Forall (fun x => live m' x = true) (workers m')
           /\ seed m' = Hash.seed_of r
           /\ trace m' = trace m0
           /\ needRespawn m' = needRespawn m
           /\ isPermanentConnection m' = isPermanentConnection m
     else
       res = inl (RangeError "ERR_SOCKET_BAD_PORT") /\ trace m0 = trace m.
Proof.
  rewrite startCluster_unfold.
  destruct (valid_port port); cbn zeta; cbn [fst snd].
  - set (m0 := set_trace _ _).
    assert (Hc : workerCount m0 = workerCount m) by now destruct m.
    assert (Hi : processUniqueId m0 = processUniqueId m) by now destruct m.
    assert (Hw : workers m0 = []) by now destruct m.
    assert (Hch : children m0 = children m) by now destruct m.
    assert (Hs : seed m0 = Hash.seed_of r) by now destruct m.
    assert (Ht : trace m0 = trace m ++ [Listen port]) by now destruct m.
    assert (Hr : needRespawn m0 = needRespawn m) by now destruct m.
    assert (Hp : isPermanentConnection m0 = isPermanentConnection m)
      by now destruct m.
    clearbody m0.
    repeat (split; [assumption || reflexivity |]).
    destruct (on_listening_spec m0)
      as (m' & Hrun & Hws & Hlive & _ & Hsd & Htr & Hr' & Hp').
    rewrite Hw, Hi, Hc in Hws. cbn [app] in Hws. rewrite Hi, Hc in Hlive.
    exists m'. split; [exact Hrun |]. split; [exact Hws |].
    split; [now rewrite Hws, length_fmap, length_seq |].
    split; [now rewrite Hws |].
    rewrite Hsd, Htr, Hr', Hp', Hs, Hr, Hp. auto.
  - destruct m; cbn. auto 6.
Qed.

(** X8.  Every child of a run of spawns carries in [NODE_UNIQUE_ID] the
    decimal text of its own id, which overrides whatever the overlay or
    the inherited environment say for that key; two different children
    never carry the same text. *)
Theorem unique_ids_distinct n m k1 k2 :
  (k1 < n)%nat -> (k2 < n)%nat -> k1 <> k2 ->
  exists c1 c2 id1 id2,
    children (snd (repeat_M n spawnWorker m)) !! (processUniqueId m + S k1)%nat
    = Some c1
    /\ children (snd (repeat_M n spawnWorker m)) !! (processUniqueId m + S k2)%nat
       = Some c2
    /\ child_env c1 !! "NODE_UNIQUE_ID"%string = Some id1
    /\ child_env c2 !! "NODE_UNIQUE_ID"%string = Some id2
    /\ id1 = show (Z.of_nat (processUniqueId m + S k1))
    /\ id1 <> id2.
Proof.
  intros H1 H2 Hne.
  destruct (repeat_spawn_child n m k1 H1) as (a1 & Hc1).
  destruct (repeat_spawn_child n m k2 H2) as (a2 & Hc2).
  eexists _, _, _, _. split; [exact Hc1 |]. split; [exact Hc2 |].
  cbn [child_env]. rewrite !lookup_insert_eq.
  repeat split. intros Heq. apply show_inj in Heq. lia.
Qed.

Lemma unique_ids_distinct_witness :
  (0 < 2)%nat /\ (1 < 2)%nat /\ 0%nat <> 1%nat
  /\ exists c1 c2 id1 id2,
       children (snd (repeat_M 2 spawnWorker
                        (Scenario.initial [] 9229 false false 2)))
         !! (processUniqueId (Scenario.initial [] 9229 false false 2) + 1)%nat
       = Some c1
       /\ children (snd (repeat_M 2 spawnWorker
                           (Scenario.initial [] 9229 false false 2)))
            !! (processUniqueId (Scenario.initial [] 9229 false false 2) + 2)%nat
          = Some c2
       /\ child_env c1 !! "NODE_UNIQUE_ID"%string = Some id1
       /\ child_env c2 !! "NODE_UNIQUE_ID"%string = Some id2
       /\ id1 <> id2.
Proof.
  assert (H1 : (0 < 2)%nat) by lia. assert (H2 : (1 < 2)%nat) by lia.
  assert (Hne : 0%nat <> 1%nat) by lia.
  split; [exact H1 |]. split; [exact H2 |]. split; [exact Hne |].
  destruct (unique_ids_distinct 2 (Scenario.initial [] 9229 false false 2)
              0 1 H1 H2 Hne)
    as (c1 & c2 & id1 & id2 & Hc1 & Hc2 & He1 & He2 & _ & Hd).
  exists c1, c2, id1, id2. repeat split; assumption.
Defined.

(** X9.  The environment of a forked child, key by key: [NODE_UNIQUE_ID]
    is the new id; any other key has the value of the overlay
    ([options.env]) when the overlay defines it, and the master's own
    value otherwise. *)
Theorem child_env_precedence m key :
  exists m' c,
    spawnWorker m = (inr tt, m')
    /\ children m' !! S (processUniqueId m) = Some c
    /\ child_env c !! key
       = if decide (key = "NODE_UNIQUE_ID"%string)
         then Some (show (Z.of_nat (S (processUniqueId m))))
         else match env m !! key with
              | Some v => Some v
              | None => process_env m !! key
              end.
Proof.
  destruct (spawnWorker_child m) as (m' & Hrun & _ & _ & Hch & _).
  eexists m', _. split; [exact Hrun |].
  split; [rewrite Hch; apply lookup_insert_eq |].
  cbn [child_env]. destruct (decide (key = "NODE_UNIQUE_ID"%string)) as [-> | Hk].
  - apply lookup_insert_eq.
  - rewrite lookup_insert_ne by congruence.
    rewrite lookup_union. destruct (env m !! key), (process_env m !! key);
      reflexivity.
Qed.

(** X10.  Below the top of the port range the debug ports work as
    meant: if the master's debug port plus the offset of the last of
    [n] spawns does not exceed [maxPort], the k-th child's appended
    argument is [--inspect-brk=] with port [debugPort + offset + k],
    which is at most 65535, and two different children never get the
    same argument. *)
Theorem debug_ports_distinct_in_range n m k1 k2 :
  existsb inspectRegex_match (process_execArgv m) = true ->
  process_debugPort m + debugPortOffset m + Z.of_nat n - 1 <= maxPort ->
  (k1 < n)%nat -> (k2 < n)%nat -> k1 <> k2 ->
  exists a1 a2,
    execArgv <$> children (snd (repeat_M n spawnWorker m))
                   !! (processUniqueId m + S k1)%nat
    = Some (splice_inspect_brk (process_execArgv m) ++ [a1])
    /\ execArgv <$> children (snd (repeat_M n spawnWorker m))
                      !! (processUniqueId m + S k2)%nat
       = Some (splice_inspect_brk (process_execArgv m) ++ [a2])
    /\ a1 = ("--inspect-brk="
             +:+ show (process_debugPort m + debugPortOffset m + Z.of_nat k1))%string
    /\ process_debugPort m + debugPortOffset m + Z.of_nat k1 <= 65535
    /\ a1 <> a2.
Proof.
  intros Hflag Hmax H1 H2 Hne.
  pose proof (spawned_child_execArgv n m k1 Hflag H1) as Hc1.
  pose proof (spawned_child_execArgv n m k2 Hflag H2) as Hc2.
  rewrite inspectPort_of_below in Hc1, Hc2 by lia.
  rewrite Z.add_assoc in Hc1, Hc2.
  eexists _, _. split; [exact Hc1 |]. split; [exact Hc2 |].
  split; [reflexivity |]. split; [unfold maxPort in Hmax; lia |].
  intros Heq. apply append_inj, show_inj in Heq. lia.
Qed.

Lemma debug_ports_distinct_in_range_witness :
  existsb inspectRegex_match
    (process_execArgv (Scenario.initial ["--inspect=9229"%string] 9229 false false 2))
  = true
  /\ process_debugPort (Scenario.initial ["--inspect=9229"%string] 9229 false false 2)
     + debugPortOffset (Scenario.initial ["--inspect=9229"%string] 9229 false false 2)
     + Z.of_nat 2 - 1 <= maxPort
  /\ exists a1 a2,
       execArgv <$> children
         (snd (repeat_M 2 spawnWorker
                 (Scenario.initial ["--inspect=9229"%string] 9229 false false 2)))
         !! (processUniqueId
               (Scenario.initial ["--inspect=9229"%string] 9229 false false 2)
             + 1)%nat
       = Some (splice_inspect_brk
                 (process_execArgv
                    (Scenario.initial ["--inspect=9229"%string] 9229 false false 2))
               ++ [a1])
       /\ a1 <> a2.
Proof.
  assert (Hf : existsb inspectRegex_match
                 (process_execArgv
                    (Scenario.initial ["--inspect=9229"%string] 9229 false false 2))
               = true) by reflexivity.
  assert (Hm : process_debugPort
                 (Scenario.initial ["--inspect=9229"%string] 9229 false false 2)
               + debugPortOffset
                   (Scenario.initial ["--inspect=9229"%string] 9229 false false 2)
               + Z.of_nat 2 - 1 <= maxPort) by (vm_compute; discriminate).
  split; [exact Hf |]. split; [exact Hm |].
  destruct (debug_ports_distinct_in_range 2
              (Scenario.initial ["--inspect=9229"%string] 9229 false false 2)
              0 1 Hf Hm ltac:(lia) ltac:(lia) ltac:(lia))
    as (a1 & a2 & H1 & _ & _ & _ & Hd).
  exists a1, a2. split; assumption.
Defined.

(** X11.  When no two arguments containing [--inspect-brk] are
    neighbours in the master's list, the child started under a debugger
    flag gets exactly the master's other arguments, in their order,
    followed by the one new [--inspect-brk=<port>]. *)
Theorem child_execArgv_filter m :
  existsb inspectRegex_match (process_execArgv m) = true ->
  (forall i a b,
     process_execArgv m !! i = Some a -> process_execArgv m !! S i = Some b ->
     includes "--inspect-brk" a = true ->
     includes "--inspect-brk" b = false) ->
  exists m' c,
    spawnWorker m = (inr tt, m')
    /\ children m' !! S (processUniqueId m) = Some c
    /\ execArgv c
       = List.filter (fun a => negb (includes "--inspect-brk" a))
                     (process_execArgv m)
         ++ [("--inspect-brk="
              +:+ show (inspectPort_of (process_debugPort m)
                                       (debugPortOffset m)))%string].
Proof.
  intros Hflag Hadj.
  destruct (spawnWorker_child m) as (m' & Hrun & _ & _ & Hch & _).
  eexists m', _. split; [exact Hrun |].
  split; [rewrite Hch; apply lookup_insert_eq |].
  cbn [execArgv]. unfold child_execArgv. rewrite Hflag.
  rewrite splice_inspect_brk_skip.
  now rewrite (splice_skip_filter (length (process_execArgv m))) by auto.
Qed.

Lemma child_execArgv_filter_witness :
  existsb inspectRegex_match
    (process_execArgv
       (Scenario.initial ["--inspect-brk=9229"; "--title=x"]%string
                         9229 false false 1)) = true
  /\ exists m' c,
       spawnWorker (Scenario.initial ["--inspect-brk=9229"; "--title=x"]%string
                                     9229 false false 1) = (inr tt, m')
       /\ children m' !! 1%nat = Some c
       /\ execArgv c = ["--title=x"; "--inspect-brk=9230"]%string.
Proof.
  assert (Hf : existsb inspectRegex_match
                 (process_execArgv
                    (Scenario.initial ["--inspect-brk=9229"; "--title=x"]%string
                                      9229 false false 1)) = true)
    by reflexivity.
  split; [exact Hf |].
  destruct (child_execArgv_filter
              (Scenario.initial ["--inspect-brk=9229"; "--title=x"]%string
                                9229 false false 1) Hf)
    as (m' & c & Hrun & Hc & Hargs).
  - intros [| [| i]] a b Ha Hb Hinc; cbn in Ha, Hb; try discriminate.
    injection Hb as <-. reflexivity.
  - exists m', c. repeat split; assumption.
Defined.

(** X12.  A worker that announces [close] and later exits is respawned
    twice when respawn is on: from a consistent state in which its
    handle is routed, the two events leave the routing list one entry
    longer than before, without that handle. *)
Theorem close_then_exit_grows m w msg code :
  consistent m ->
  needRespawn m = true ->
  Handle w ∈ workers m ->
  msg_type msg = Some "close"%string ->
  exists m',
    (on_message w msg ;; exit_event w code) m = (inr tt, m')
    /\ length (workers m') = S (length (workers m))
    /\ (Handle w ∉ workers m').
Proof.
  intros Hm Hr Hin Hmsg.
  assert (Hstep1 : on_message w msg m = respawn w m)
    by now rewrite on_message_close, Hr.
  destruct (respawn_spec m w)
    as (m1 & ws1 & Hrun1 & Hws1 & Hcase & Hid1 & (c1 & Hch1) & Hr1 & _).
  destruct Hcase as [[Hnin _] | (i & Hat & _ & ->)]; [contradiction |].
  pose proof Hm as (Hnd & Hstored & Hkeys).
  assert (Hgone : Handle w ∉ workers m1).
  { rewrite Hws1, not_elem_of_app. split.
    - now apply not_elem_of_delete_NoDup.
    - rewrite list_elem_of_singleton. intros [= ->].
      apply Hstored, Hkeys in Hin. lia. }
  unfold bind at 1. rewrite Hstep1, Hrun1, exit_event_unfold.
  set (m2 := set_children _ m1).
  assert (Hw2 : workers m2 = workers m1) by now destruct m1.
  assert (Hr2 : needRespawn m2 = true) by (rewrite <- Hr, <- Hr1; now destruct m1).
  assert (Hi2 : processUniqueId m2 = processUniqueId m1) by now destruct m1.
  clearbody m2. unfold on_exit, bind, get. rewrite Hr2.
  destruct (respawn_spec m2 w)
    as (m' & ws2 & Hrun2 & Hws2 & Hcase2 & _).
  destruct Hcase2 as [[_ ->] | (j & Hat2 & _)].
  - exists m'. split; [exact Hrun2 |].
    rewrite Hws2, Hw2, Hws1, !length_app.
    rewrite length_delete by (rewrite Hat; eauto).
    apply lookup_lt_Some in Hat. cbn.
    split; [lia |].
    rewrite <- Hws1, not_elem_of_app. split; [exact Hgone |].
    rewrite list_elem_of_singleton. intros [= ->].
    apply Hstored, Hkeys in Hin. lia.
  - exfalso. apply Hgone. rewrite <- Hw2.
    eapply list_elem_of_lookup_2, Hat2.
Qed.

Lemma initial_consistent args port perm resp cnt :
  consistent (Scenario.initial args port perm resp cnt).
Proof.
  unfold consistent. cbn. split; [constructor |]. split.
  - intros w Hw. now apply elem_of_nil in Hw.
  - intros w [c Hc]. now rewrite lookup_empty in Hc.
Qed.

Lemma started_consistent args port perm resp cnt :
  consistent (Scenario.started args port perm resp cnt).
Proof.
  unfold Scenario.started, on_listening, bind, get. cbn [fst snd].
  apply repeat_spawn_consistent.
  apply (consistent_same (Scenario.initial args port perm resp cnt));
    [reflexivity | reflexivity | reflexivity | apply initial_consistent].
Qed.

Lemma close_then_exit_grows_witness :
  consistent (Scenario.started [] 9229 false true 2)
  /\ needRespawn (Scenario.started [] 9229 false true 2) = true
  /\ Handle 1 ∈ workers (Scenario.started [] 9229 false true 2)
  /\ msg_type (JObj [("type", "close")%string]) = Some "close"%string
  /\ exists m',
       (on_message 1 (JObj [("type", "close")%string]) ;; exit_event 1 0)
         (Scenario.started [] 9229 false true 2) = (inr tt, m')
       /\ length (workers m')
          = S (length (workers (Scenario.started [] 9229 false true 2))).
Proof.
  assert (Hc : consistent (Scenario.started [] 9229 false true 2))
    by apply started_consistent.
  assert (Hr : needRespawn (Scenario.started [] 9229 false true 2) = true)
    by reflexivity.
  assert (Hin : Handle 1 ∈ workers (Scenario.started [] 9229 false true 2))
    by (apply (list_elem_of_lookup_2 _ 0%nat); reflexivity).
  assert (Hmsg : msg_type (JObj [("type", "close")%string])
                 = Some "close"%string) by reflexivity.
  split; [exact Hc |]. split; [exact Hr |]. split; [exact Hin |].
  split; [exact Hmsg |].
  destruct (close_then_exit_grows (Scenario.started [] 9229 false true 2)
              1%nat (JObj [("type", "close")%string]) 0 Hc Hr Hin Hmsg)
    as (m' & Hrun & Hlen & _).
  exists m'. split; assumption.
Defined.

(** X13.  With respawn on, the exit of a routed worker restores a fully
    live pool: from a consistent state whose other routed workers are
    all live, after the exit event the dead handle is gone, the
    replacement stands at the tail, the pool has its old size and every
    entry of the routing list is live. *)
Theorem exit_with_respawn_restores m w code :
  consistent m ->
  needRespawn m = true ->
  Handle w ∈ workers m ->
  (forall x, x ∈ workers m -> x <> Handle w -> live m x = true) ->
  exists m' (i : nat),
    exit_event w code m = (inr tt, m')
    /\ workers m !! i = Some (Handle w)
    /\ workers m' = delete i (workers m) ++ [Handle (S (processUniqueId m))]
    /\ (Handle w ∉ workers m')
    /\ length (workers m') = length (workers m)
    /\ Forall (fun x => live m' x = true) (workers m').
Proof.
  intros (Hnd & Hstored & Hkeys) Hr Hin Hothers.
  rewrite exit_event_unfold.
  set (m1 := set_children _ m).
  assert (Hw1 : workers m1 = workers m) by now destruct m.
  assert (Hi1 : processUniqueId m1 = processUniqueId m) by now destruct m.
  assert (Hr1 : needRespawn m1 = true) by (rewrite <- Hr; now destruct m).
  assert (Hc1 : children m1
                = alter (fun c => Child (execArgv c) (child_env c) false false)
                        w (children m)) by now destruct m.
  clearbody m1. unfold on_exit, bind, get. rewrite Hr1.
  rewrite <- Hw1 in Hin.
  destruct (indexOf_elem _ _ Hin) as (i & Hi & Hat & _).
  destruct (respawn_found m1 w i Hi) as (m' & Hrun & Hws & Hlive).
  destruct (respawn_spec m1 w) as (m'' & ws' & Hrun' & _ & _ & _ & (c & Hch) & _).
  rewrite Hrun in Hrun'. injection Hrun' as <-.
  rewrite Hw1, Hi1 in *.
  assert (Hnew : Handle w <> Handle (S (processUniqueId m))).
  { intros [= ->]. apply Hstored, Hkeys in Hin. lia. }
  exists m', i. split; [exact Hrun |]. split; [exact Hat |].
  split; [exact Hws |]. rewrite Hws. split; [| split].
  - rewrite not_elem_of_app. split.
    + now apply not_elem_of_delete_NoDup.
    + now rewrite list_elem_of_singleton.
  - rewrite length_app, length_delete by (rewrite Hat; eauto).
    apply lookup_lt_Some in Hat. cbn. lia.
  - apply Forall_app. split; [| now repeat constructor].
    apply Forall_forall. intros x Hx.
    assert (Hx' : x ∈ workers m) by (eapply list_elem_of_delete_inv, Hx).
    assert (Hxw : x <> Handle w).
    { intros ->. now apply (not_elem_of_delete_NoDup (workers m) i (Handle w)). }
    rewrite <- (Hothers x Hx' Hxw).
    destruct x as [| k]; [reflexivity |]. unfold live.
    rewrite Hch, Hc1, lookup_insert_ne, lookup_alter_ne; [reflexivity | |].
    + congruence.
    + apply Hstored, Hkeys in Hx'. lia.
Qed.

Lemma exit_with_respawn_restores_witness :
  consistent (Scenario.started [] 9229 false true 2)
  /\ needRespawn (Scenario.started [] 9229 false true 2) = true
  /\ Handle 1 ∈ workers (Scenario.started [] 9229 false true 2)
  /\ (forall x, x ∈ workers (Scenario.started [] 9229 false true 2) ->
                x <> Handle 1 ->
                live (Scenario.started [] 9229 false true 2) x = true)
  /\ exists m',
       exit_event 1 0 (Scenario.started [] 9229 false true 2) = (inr tt, m')
       /\ Forall (fun x => live m' x = true) (workers m').
Proof.
  assert (Hc : consistent (Scenario.started [] 9229 false true 2))
    by apply started_consistent.
  assert (Hr : needRespawn (Scenario.started [] 9229 false true 2) = true)
    by reflexivity.
  assert (Hin : Handle 1 ∈ workers (Scenario.started [] 9229 false true 2))
    by (apply (list_elem_of_lookup_2 _ 0%nat); reflexivity).
  assert (Ho : forall x, x ∈ workers (Scenario.started [] 9229 false true 2) ->
                         x <> Handle 1 ->
                         live (Scenario.started [] 9229 false true 2) x = true).
  { intros x Hx Hne. vm_compute in Hx.
    repeat (apply elem_of_cons in Hx as [-> | Hx];
            [first [contradiction | reflexivity] |]).
    now apply elem_of_nil in Hx. }
  split; [exact Hc |]. split; [exact Hr |]. split; [exact Hin |].
  split; [exact Ho |].
  destruct (exit_with_respawn_restores (Scenario.started [] 9229 false true 2)
              1%nat 0 Hc Hr Hin Ho)
    as (m' & i & Hrun & _ & _ & _ & _ & Hall).
  exists m'. split; assumption.
Defined.

Lemma respawn_keeps_policy m w :
  seed (snd (respawn w m)) = seed m
  /\ isPermanentConnection (snd (respawn w m)) = isPermanentConnection m.
Proof.
  destruct m as [o id args port penv perm cnt resp e sd ws ch tr].
  unfold respawn, spawnWorker, fork, ch_fork, bind, get, modify, ret.
  cbn [workers]. destruct (negb _); cbn;
    destruct (existsb inspectRegex_match args); cbn; split; reflexivity.
Qed.

(** X22.  Sticky routing does not survive a respawn for the clients of
    later workers: in sticky mode with respawn on, after the worker at
    index [i] exits (the list keeps its length, the others move up and
    the replacement takes the tail), an address whose index is below
    [i] keeps its worker, and an address whose index is [i] or above is
    given a different worker than before. *)
Theorem sticky_shifts_after_respawn m w code sock i :
  consistent m ->
  isPermanentConnection m = true ->
  needRespawn m = true ->
  workers m !! i = Some (Handle w) ->
  let j := Z.to_nat (Hash.hash (seed m) (addr_of sock)
                     mod Z.of_nat (length (workers m))) in
  ((j < i)%nat ->
     fst (select sock (snd (exit_event w code m))) = fst (select sock m))
  /\ ((i <= j)%nat ->
        fst (select sock (snd (exit_event w code m))) <> fst (select sock m)).
Proof.
  intros Hm Hp Hr Hat j.
  pose proof Hm as (Hnd & Hstored & Hkeys).
  assert (Hne : workers m <> []) by (intros Hnil; now rewrite Hnil in Hat).
  pose proof (worker_at_lookup (workers m) _ Hne
                (hash_nonneg (seed m) (addr_of sock))) as Hold.
  fold j in Hold.
  assert (Hin : Handle w ∈ workers m) by (eapply list_elem_of_lookup_2, Hat).
  rewrite exit_event_unfold.
  set (m1 := set_children _ m).
  assert (Hw1 : workers m1 = workers m) by now destruct m.
  assert (Hi1 : processUniqueId m1 = processUniqueId m) by now destruct m.
  assert (Hr1 : needRespawn m1 = true) by (rewrite <- Hr; now destruct m).
  assert (Hs1 : seed m1 = seed m) by now destruct m.
  assert (Hp1 : isPermanentConnection m1 = true)
    by (rewrite <- Hp; now destruct m).
  clearbody m1. unfold on_exit, bind, get. rewrite Hr1.
  destruct (respawn_keeps_policy m1 w) as (Hseed & Hperm).
  rewrite <- Hw1 in Hin.
  destruct (indexOf_elem _ _ Hin) as (i0 & Hi0 & Hat0 & _).
  rewrite Hw1 in Hat0.
  assert (i0 = i) by (eapply NoDup_lookup; eauto). subst i0.
  destruct (respawn_found m1 w i Hi0) as (m' & Hrun & Hws & _).
  rewrite Hrun in *. cbn [snd] in *.
  rewrite Hw1, Hi1 in Hws. rewrite Hs1 in Hseed. rewrite Hp1 in Hperm.
  assert (Hlen : length (workers m') = length (workers m)).
  { rewrite Hws, length_app, length_delete by (rewrite Hat; eauto).
    apply lookup_lt_Some in Hat. cbn. lia. }
  assert (Hne' : workers m' <> []).
  { intros Hnil. rewrite Hnil in Hlen. destruct (workers m); [easy | discriminate]. }
  pose proof (worker_at_lookup (workers m') _ Hne'
                (hash_nonneg (seed m') (addr_of sock))) as Hnew.
  rewrite Hseed, Hlen in Hnew. fold j in Hnew.
  rewrite (select_sticky sock m' Hperm), (select_sticky sock m Hp).
  cbn [fst]. rewrite Hseed.
  set (old := worker_at (workers m) _) in *.
  set (new := worker_at (workers m') _) in *.
  clearbody old new.
  pose proof (lookup_lt_Some _ _ _ Hold) as Hj.
  pose proof (lookup_lt_Some _ _ _ Hat) as Hilt.
  rewrite Hws in Hnew. split; intros Hji.
  - rewrite lookup_app_l in Hnew
      by (rewrite length_delete by (rewrite Hat; eauto); lia).
    rewrite list_lookup_delete_lt in Hnew by lia. congruence.
  - intros [= Heq]. subst new.
    destruct (decide (S j < length (workers m))%nat) as [Hlt | Hge].
    + rewrite lookup_app_l in Hnew
        by (rewrite length_delete by (rewrite Hat; eauto); lia).
      rewrite list_lookup_delete_ge in Hnew by lia.
      pose proof (NoDup_lookup _ _ _ _ Hnd Hold Hnew). lia.
    + rewrite lookup_app_r in Hnew
        by (rewrite length_delete by (rewrite Hat; eauto); lia).
      rewrite length_delete in Hnew by (rewrite Hat; eauto).
      replace (j - (length (workers m) - 1))%nat with 0%nat in Hnew by lia.
      cbn in Hnew. injection Hnew as <-.
      apply list_elem_of_lookup_2, Hstored, Hkeys in Hold. lia.
Qed.

Lemma sticky_shifts_after_respawn_witness :
  consistent (Scenario.started [] 9229 true true 3)
  /\ isPermanentConnection (Scenario.started [] 9229 true true 3) = true
  /\ needRespawn (Scenario.started [] 9229 true true 3) = true
  /\ workers (Scenario.started [] 9229 true true 3) !! 0%nat = Some (Handle 1)
  /\ (0 <= Z.to_nat
             (Hash.hash (seed (Scenario.started [] 9229 true true 3))
                        (addr_of (Scenario.client 1 "10.0.0.7"))
              mod Z.of_nat (length (workers (Scenario.started [] 9229 true true 3)))))%nat
  /\ fst (select (Scenario.client 1 "10.0.0.7")
                 (snd (exit_event 1 0 (Scenario.started [] 9229 true true 3))))
     <> fst (select (Scenario.client 1 "10.0.0.7")
                    (Scenario.started [] 9229 true true 3)).
Proof.
  assert (Hc : consistent (Scenario.started [] 9229 true true 3))
    by apply started_consistent.
  assert (Hp : isPermanentConnection (Scenario.started [] 9229 true true 3)
               = true) by reflexivity.
  assert (Hr : needRespawn (Scenario.started [] 9229 true true 3) = true)
    by reflexivity.
  assert (Hat : workers (Scenario.started [] 9229 true true 3) !! 0%nat
                = Some (Handle 1)) by reflexivity.
  assert (Hj : (0 <= Z.to_nat
                  (Hash.hash (seed (Scenario.started [] 9229 true true 3))
                             (addr_of (Scenario.client 1 "10.0.0.7"))
                   mod Z.of_nat
                         (length (workers (Scenario.started [] 9229 true true 3)))))%nat)
    by lia.
  split; [exact Hc |]. split; [exact Hp |]. split; [exact Hr |].
  split; [exact Hat |]. split; [exact Hj |].
  exact (proj2 (sticky_shifts_after_respawn
                  (Scenario.started [] 9229 true true 3) 1%nat 0
                  (Scenario.client 1 "10.0.0.7") 0%nat Hc Hp Hr Hat) Hj).
Defined.

End SpawnProperties.

(** ** Roles, start-up and the worker process *)
Section ClusterFacts.

Import Cluster.

Lemma isMaster_unset p :
  has_master_pid (process_env p) = false ->
  isMaster p
  = (true,
     Process (pid p)
             (<["CLUSTER_MASTER_PID"%string := show (pid p)]> (process_env p))
             (execArgv p) (debugPort p)).
Proof. intros H. unfold isMaster. now rewrite H. Qed.

Lemma isMaster_set p :
  has_master_pid (process_env p) = true -> isMaster p = (false, p).
Proof. intros H. unfold isMaster. now rewrite H. Qed.

Lemma has_master_pid_insert e n :
  has_master_pid (<["CLUSTER_MASTER_PID"%string := show n]> e) = true.
Proof.
  unfold has_master_pid. rewrite lookup_insert_eq.
  destruct (show_nonempty n) as (c & s & ->). reflexivity.
Qed.

(** A worker of a cluster after [startWorker] and [startTransport]:
    [listen] was swapped before the transport started, so nothing is
    bound and nothing can fail. *)
Lemma cluster_worker_started this listen_error :
  isClusterMode this = true ->
  startTransport this (startWorker this (fresh_worker listen_error))
  = Worker (Worker.Server 0 0 []) listen_error true true true None [].
Proof.
  intros Hc. unfold startTransport, startWorker, fresh_worker. rewrite Hc.
  reflexivity.
Qed.

(** The master branch of [start]: [startCluster] on [this.port], and
    the promise rejects when [listen] refuses the port. *)
Lemma start_as_master this p r listen_error :
  isClusterMode this = true ->
  has_master_pid (process_env p) = false ->
  start this p r listen_error
  = if Master.valid_port (default 0 (port this)) then
      AsMaster (snd (isMaster p))
               (snd (Master.startCluster r (default 0 (port this))
                       (master_of this (snd (isMaster p)))))
    else Rejected (snd (isMaster p)) (RangeError "ERR_SOCKET_BAD_PORT").
Proof.
  intros Hc Hp. unfold start.
  rewrite Hc, (isMaster_unset p Hp), !startCluster_unfold. cbn [snd].
  now destruct (Master.valid_port (default 0 (port this))).
Qed.

(** [start] in the master on a port [listen] accepts, and the
    ['listening'] callback after it. *)
Lemma start_master_listening this p r listen_error :
  isClusterMode this = true ->
  has_master_pid (process_env p) = false ->
  Master.valid_port (default 0 (port this)) = true ->
  exists m0 m,
    start this p r listen_error = AsMaster (snd (isMaster p)) m0
    /\ Master.workers m0 = []
    /\ Master.children m0 = ∅
    /\ Master.trace m0 = [Master.Listen (default 0 (port this))]
    /\ Master.on_listening m0 = (inr tt, m)
    /\ Master.workers m
       = Master.Handle <$> seq 1 (default 0%nat (workerCount this))
    /\ Forall (fun x => Master.live m x = true) (Master.workers m)
    /\ Master.needRespawn m = default true (needRespawn this)
    /\ Master.isPermanentConnection m
       = Transport.isPermanentConnection (this_transport this)
    /\ Master.trace m = Master.trace m0.
Proof.
  intros Hc Hp Hv.
  rewrite (start_as_master this p r listen_error Hc Hp), Hv.
  rewrite startCluster_unfold, Hv. cbn [snd].
  set (m0 := Master.set_trace _ _).
  destruct (on_listening_spec m0)
    as (m & Hrun & Hws & Hlive & _ & _ & Htr & Hr & Hperm).
  exists m0, m. split; [reflexivity |].
  split; [reflexivity |]. split; [reflexivity |]. split; [reflexivity |].
  split; [exact Hrun |]. split; [exact Hws |].
  split; [rewrite Hws; exact Hlive |].
  split; [exact Hr |]. split; [exact Hperm | exact Htr].
Qed.

Lemma start_as_worker this p r listen_error :
  isClusterMode this = true ->
  has_master_pid (process_env p) = true ->
  start this p r listen_error
  = AsWorker p (Worker (Worker.Server 0 0 []) listen_error
                       true true true None []).
Proof.
  intros Hc Hp. unfold start. rewrite Hc, (isMaster_set p Hp).
  now rewrite cluster_worker_started.
Qed.

(** Where the environment of a stored child comes from. *)
Lemma repeat_spawn_children_env n : forall m w c,
  Master.children (snd (Master.repeat_M n Master.spawnWorker m)) !! w = Some c ->
  Master.children m !! w = Some c
  \/ exists id,
       Master.child_env c
       = <["NODE_UNIQUE_ID"%string := show id]>
           (Master.env m ∪ Master.process_env m).
Proof.
  induction n as [| n IH]; intros m w c Hc; [now left |].
  cbn [Master.repeat_M] in Hc. unfold Master.bind in Hc.
  destruct (spawnWorker_child m)
    as (m1 & Hrun & _ & _ & Hch & He & Hpe & _).
  rewrite Hrun in Hc. apply IH in Hc as [Hc | (id & Hc)].
  - rewrite Hch in Hc.
    destruct (decide (w = S (Master.processUniqueId m))) as [-> | Hne].
    + rewrite lookup_insert_eq in Hc. injection Hc as <-. right. eauto.
    + rewrite lookup_insert_ne in Hc by congruence. now left.
  - right. exists id. now rewrite Hc, He, Hpe.
Qed.

End ClusterFacts.

Section ClusterProperties.

Import Cluster.

(** X14.  The role test answers "master" once only: in a process
    whose environment has no [CLUSTER_MASTER_PID], the first read of
    [isMaster] returns true and stores the pid in the environment, and
    a second read in the same process returns false. *)
Theorem isMaster_only_once p :
  has_master_pid (process_env p) = false ->
  fst (isMaster p) = true
  /\ process_env (snd (isMaster p)) !! "CLUSTER_MASTER_PID"%string
     = Some (show (pid p))
  /\ fst (isMaster (snd (isMaster p))) = false.
Proof.
  intros Hp. rewrite (isMaster_unset p Hp). cbn [fst snd process_env].
  split; [reflexivity |]. split; [apply lookup_insert_eq |].
  rewrite isMaster_set; [reflexivity |]. apply has_master_pid_insert.
Qed.

Lemma isMaster_only_once_witness :
  has_master_pid (process_env (Process 4242 ∅ [] 9229)) = false
  /\ fst (isMaster (Process 4242 ∅ [] 9229)) = true
  /\ fst (isMaster (snd (isMaster (Process 4242 ∅ [] 9229)))) = false.
Proof.
  assert (H : has_master_pid (process_env (Process 4242 ∅ [] 9229)) = false)
    by reflexivity.
  split; [exact H |].
  destruct (isMaster_only_once (Process 4242 ∅ [] 9229) H) as (H1 & _ & H2).
  split; assumption.
Defined.

(** X15.  The children of a master take the worker role and never bind
    the port: when a cluster-mode process without [CLUSTER_MASTER_PID]
    starts on a port that [listen] accepts, and the overlay does not
    set that variable, [start] leaves a master, and once its
    ['listening'] callback has run every child in its store has the
    master's pid in its environment; a process started with the
    environment of such a child is a worker whose [listen] is the stub,
    with [close] wrapped and the message listener installed, even if
    its server's own [listen] would throw. *)
Theorem children_start_as_workers this p r listen_error :
  isClusterMode this = true ->
  has_master_pid (process_env p) = false ->
  this_env this !! "CLUSTER_MASTER_PID"%string = None ->
  Master.valid_port (default 0 (port this)) = true ->
  exists p' m,
    start this p r listen_error = AsMaster p' m
    /\ forall w c,
         Master.children (snd (Master.on_listening m)) !! w = Some c ->
         Master.child_env c !! "CLUSTER_MASTER_PID"%string
         = Some (show (pid p))
         /\ forall p2 r2 listen_error2,
              process_env p2 = Master.child_env c ->
              exists wk,
                start this p2 r2 listen_error2 = AsWorker p2 wk
                /\ listening wk = None
                /\ listen_faked wk = true
                /\ close_wrapped wk = true
                /\ subscribed wk = true
                /\ effects wk = [].
Proof.
  intros Hc Hp He Hv.
  rewrite (start_as_master this p r listen_error Hc Hp), Hv.
  eexists _, _. split; [reflexivity |]. intros w c Hw.
  rewrite (isMaster_unset p Hp), startCluster_unfold, Hv in Hw.
  cbn [snd] in Hw.
  unfold Master.on_listening, Master.bind, Master.get in Hw.
  apply repeat_spawn_children_env in Hw as [Hw | (id & Hw)].
  { cbn in Hw. now rewrite lookup_empty in Hw. }
  cbn in Hw.
  assert (Hpid : Master.child_env c !! "CLUSTER_MASTER_PID"%string
                 = Some (show (pid p))).
  { rewrite Hw, lookup_insert_ne by discriminate.
    rewrite lookup_union_r by exact He. apply lookup_insert_eq. }
  split; [exact Hpid |]. intros p2 r2 le2 Hp2.
  exists (Worker (Worker.Server 0 0 []) le2 true true true None []).
  split; [| repeat split].
  apply start_as_worker; [exact Hc |].
  unfold has_master_pid. rewrite Hp2, Hpid.
  destruct (show_nonempty (pid p)) as (a & s & ->). reflexivity.
Qed.

Lemma children_start_as_workers_witness :
  isClusterMode Demo.cluster = true
  /\ has_master_pid (process_env Demo.shell) = false
  /\ this_env Demo.cluster !! "CLUSTER_MASTER_PID"%string = None
  /\ Master.valid_port (default 0 (port Demo.cluster)) = true
  /\ exists p' m,
       start Demo.cluster Demo.shell 5 None = AsMaster p' m
       /\ forall w c,
            Master.children (snd (Master.on_listening m)) !! w = Some c ->
            Master.child_env c !! "CLUSTER_MASTER_PID"%string
            = Some (show (pid Demo.shell)).
Proof.
  assert (Hc : isClusterMode Demo.cluster = true) by reflexivity.
  assert (Hp : has_master_pid (process_env Demo.shell) = false) by reflexivity.
  assert (He : this_env Demo.cluster !! "CLUSTER_MASTER_PID"%string = None)
    by reflexivity.
  assert (Hv : Master.valid_port (default 0 (port Demo.cluster)) = true)
    by reflexivity.
  split; [exact Hc |]. split; [exact Hp |]. split; [exact He |].
  split; [exact Hv |].
  destruct (children_start_as_workers Demo.cluster Demo.shell 5 None
              Hc Hp He Hv)
    as (p' & m & Hrun & Hall).
  exists p', m. split; [exact Hrun |].
  intros w c Hw. exact (proj1 (Hall w c Hw)).
Defined.

(** X16.  Outside cluster mode [start] makes an ordinary server: the
    role marker is not written, the server listens on the transport's
    port, [close] is not wrapped and no message listener is installed,
    so IPC messages change nothing and closing tells no master; if the
    server's [listen] throws, the error is logged with the prefix
    "Failed to start transport: " and the process exits with code 1. *)
Theorem single_mode_start this p r listen_error :
  isClusterMode this = false ->
  exists wk,
    start this p r listen_error = AsWorker p wk
    /\ close_wrapped wk = false
    /\ subscribed wk = false
    /\ (forall msg sock, receive msg sock wk = wk)
    /\ effects (server_close wk) = effects wk ++ [OldClose]
    /\ match listen_error with
       | None =>
           listening wk = Some (Transport.port (this_transport this))
           /\ effects wk = []
       | Some message =>
           listening wk = None
           /\ effects wk
              = [ConsoleError ("Failed to start transport: " +:+ message);
                 ProcessExit 1]
       end.
Proof.
  intros Hc. unfold start, startTransport, startWorker, fresh_worker.
  rewrite Hc. unfold transport_start, server_listen. cbn.
  destruct listen_error as [message |]; eexists; (split; [reflexivity |]);
    cbn; repeat split.
Qed.

Lemma single_mode_start_witness :
  isClusterMode Demo.single = false
  /\ exists wk,
       start Demo.single Demo.shell 5 None = AsWorker Demo.shell wk
       /\ listening wk = Some 8080.
Proof.
  assert (Hc : isClusterMode Demo.single = false) by reflexivity.
  split; [exact Hc |].
  destruct (single_mode_start Demo.single Demo.shell 5 None Hc)
    as (wk & Hrun & _ & _ & _ & _ & Hl & _).
  exists wk. split; [exact Hrun | exact Hl].
Defined.

(** X17.  The two ends of the close protocol fit: a cluster worker
    that closes its server sends one message before the original
    [close] runs, and that message is one the master's listener takes
    for a close, so that with respawn on it respawns the worker; with
    respawn off the master ignores it. *)
Theorem worker_close_reaches_master this listen_error m w :
  isClusterMode this = true ->
  exists msg,
    effects (server_close
               (startTransport this
                  (startWorker this (fresh_worker listen_error))))
    = [ProcessSend msg; OldClose]
    /\ Master.on_message w msg m
       = if Master.needRespawn m then Master.respawn w m else (inr tt, m).
Proof.
  intros Hc. rewrite (cluster_worker_started this listen_error Hc).
  eexists. split; [reflexivity |].
  now apply on_message_close.
Qed.

Lemma worker_close_reaches_master_witness :
  isClusterMode Demo.cluster = true
  /\ exists msg,
       effects (server_close
                  (startTransport Demo.cluster
                     (startWorker Demo.cluster (fresh_worker None))))
       = [ProcessSend msg; OldClose].
Proof.
  assert (Hc : isClusterMode Demo.cluster = true) by reflexivity.
  split; [exact Hc |].
  destruct (worker_close_reaches_master Demo.cluster None
              (Scenario.started [] 9229 false true 2) 1%nat Hc)
    as (msg & He & _).
  exists msg. exact He.
Defined.

Lemma on_message_accepted msg sock srv :
  fst (Worker.on_message msg sock srv)
  = match (if decide (msg = JStr "balancing") then sock else None) with
    | Some s =>
        Worker.Server
          (Worker.srv_id srv) (Worker._connections srv + 1)
          (Worker.emitted srv
           ++ [("connection"%string,
                Socket (fd s) (remoteAddress s) (Some (Worker.srv_id srv)))])
    | None => srv
    end.
Proof.
  unfold Worker.on_message. destruct sock as [s |].
  - destruct (decide (msg <> JStr "balancing")) as [Hne | Heq];
      destruct (decide (msg = JStr "balancing")) as [He | Hn];
      try contradiction; try reflexivity.
  - now destruct (decide (msg = JStr "balancing")).
Qed.

Lemma receive_subscribed msg sock wk :
  subscribed wk = true ->
  receive msg sock wk
  = Worker (fst (Worker.on_message msg sock (w_server wk))) (listen_error wk)
           (listen_faked wk) (close_wrapped wk) true (listening wk) (effects wk).
Proof. intros Hs. unfold receive. now rewrite Hs. Qed.

(** X18.  The worker's connection counter counts the sockets handed
    to the transport: over any sequence of IPC messages received by a
    subscribed worker, [_connections] grows by the number of messages
    that are "balancing" with a socket attached, and the server gets
    one [connection] event for each of them, in order, carrying the
    socket with the server as its owner; all other messages leave no
    mark. *)
Theorem worker_counts_connections msgs : forall wk,
  subscribed wk = true ->
  let accepted :=
    omap (fun '(msg, sock) =>
            if decide (msg = JStr "balancing") then sock else None) msgs in
  let wk' := foldl (fun w '(msg, sock) => receive msg sock w) wk msgs in
  Worker._connections (w_server wk')
  = Worker._connections (w_server wk) + Z.of_nat (length accepted)
  /\ Worker.emitted (w_server wk')
     = Worker.emitted (w_server wk)
       ++ ((fun s => ("connection"%string,
                      Socket (fd s) (remoteAddress s)
                             (Some (Worker.srv_id (w_server wk)))))
           <$> accepted)
  /\ Worker.srv_id (w_server wk') = Worker.srv_id (w_server wk).
Proof.
  induction msgs as [| [msg sock] msgs IH]; intros wk Hs; cbn zeta.
  - cbn. rewrite app_nil_r. repeat split. lia.
  - cbn [foldl omap]. rewrite (receive_subscribed msg sock wk Hs).
    set (wk1 := Worker _ _ _ _ _ _ _).
    destruct (IH wk1 eq_refl) as (Hcount & Hemit & Hid).
    cbn zeta in Hcount, Hemit, Hid. rewrite Hcount, Hemit, Hid.
    unfold wk1. cbn [w_server]. rewrite on_message_accepted.
    cbn [list_omap].
    destruct (if decide (msg = JStr "balancing") then sock else None) as [s |].
    + cbn [Worker._connections Worker.emitted Worker.srv_id length].
      rewrite <- app_assoc, Nat2Z.inj_succ.
      repeat split; try reflexivity.
      rewrite <- Z.add_assoc, Z.add_1_l. reflexivity.
    + repeat split; reflexivity.
Qed.

Lemma worker_counts_connections_witness :
  subscribed (Worker (Worker.Server 0 0 []) None true true true None []) = true
  /\ Worker._connections
       (w_server
          (foldl (fun w '(msg, sock) => receive msg sock w)
                 (Worker (Worker.Server 0 0 []) None true true true None [])
                 [(JStr "balancing", Some (Scenario.client 1 "10.0.0.7"));
                  (JStr "ping", Some (Scenario.client 2 "10.0.0.7"));
                  (JStr "balancing", None);
                  (JStr "balancing", Some (Scenario.client 3 "10.0.0.8"))]))
     = 0 + Z.of_nat 2.
Proof.
  assert (Hs : subscribed (Worker (Worker.Server 0 0 []) None true true true
                                  None []) = true) by reflexivity.
  split; [exact Hs |].
  exact (proj1 (worker_counts_connections
                  [(JStr "balancing", Some (Scenario.client 1 "10.0.0.7"));
                   (JStr "ping", Some (Scenario.client 2 "10.0.0.7"));
                   (JStr "balancing", None);
                   (JStr "balancing", Some (Scenario.client 3 "10.0.0.8"))]
                  (Worker (Worker.Server 0 0 []) None true true true None [])
                  Hs)).
Defined.

(** X19.  A socket the balancer sends arrives at the transport: any
    [Send] that [balance] adds to the trace carries the balanced socket
    and a body that a subscribed worker accepts, so the worker counts
    it, makes its server the socket's owner and emits [connection]
    with it. *)
Theorem handoff_reaches_transport sock m wk evs w msg s :
  subscribed wk = true ->
  Master.trace (snd (Master.balance sock m)) = Master.trace m ++ evs ->
  Master.Send w msg s ∈ evs ->
  s = sock
  /\ w_server (receive (JStr msg) (Some s) wk)
     = Worker.Server
         (Worker.srv_id (w_server wk))
         (Worker._connections (w_server wk) + 1)
         (Worker.emitted (w_server wk)
          ++ [("connection"%string,
               Socket (fd sock) (remoteAddress sock)
                      (Some (Worker.srv_id (w_server wk))))]).
Proof.
  intros Hs Htr Hin.
  destruct (balance_spec sock m) as (worker & ws' & evs0 & Hbal & _ & _ & Hevs).
  rewrite Hbal in Htr. cbn [snd] in Htr.
  assert (Heq : evs = evs0).
  { apply (app_inv_head (Master.trace m)). rewrite <- Htr. now destruct m. }
  subst evs0.
  assert (Hsend : evs = [Master.Send w msg s] -> msg = "balancing"%string
                  -> s = sock -> s = sock
                     /\ w_server (receive (JStr msg) (Some s) wk)
                        = Worker.Server
                            (Worker.srv_id (w_server wk))
                            (Worker._connections (w_server wk) + 1)
                            (Worker.emitted (w_server wk)
                             ++ [("connection"%string,
                                  Socket (fd sock) (remoteAddress sock)
                                         (Some (Worker.srv_id (w_server wk))))])).
  { intros _ -> ->. split; [reflexivity |].
    rewrite (receive_subscribed _ _ wk Hs). reflexivity. }
  assert (Hdrop : forall e,
             evs = [Master.LogError e; Master.SocketEmit sock "close";
                    Master.SocketEnd sock] -> False).
  { intros e ->.
    repeat (apply elem_of_cons in Hin as [Hin | Hin]; [discriminate |]).
    now apply elem_of_nil in Hin. }
  destruct worker as [| w0].
  - destruct Hevs as [e He]. destruct (Hdrop e He).
  - destruct (Master.live m (Master.Handle w0)).
    + subst evs. apply list_elem_of_singleton in Hin.
      injection Hin as -> -> ->. now apply Hsend.
    + destruct Hevs as [e He]. destruct (Hdrop e He).
Qed.

Lemma handoff_reaches_transport_witness :
  subscribed (Worker (Worker.Server 0 0 []) None true true true None []) = true
  /\ Master.trace (snd (Master.balance (Scenario.client 1 "10.0.0.7")
                                       Scenario.example))
     = Master.trace Scenario.example
       ++ [Master.Send 1 "balancing" (Scenario.client 1 "10.0.0.7")]
  /\ Master.Send 1 "balancing" (Scenario.client 1 "10.0.0.7")
       ∈ [Master.Send 1 "balancing" (Scenario.client 1 "10.0.0.7")]
  /\ w_server (receive (JStr "balancing")
                       (Some (Scenario.client 1 "10.0.0.7"))
                       (Worker (Worker.Server 0 0 []) None true true true
                               None []))
     = Worker.Server 0 (0 + 1)
         ([] ++ [("connection"%string,
                  Socket 1 (Some "10.0.0.7"%string) (Some 0%nat))]).
Proof.
  assert (Hs : subscribed (Worker (Worker.Server 0 0 []) None true true true
                                  None []) = true) by reflexivity.
  assert (Ht : Master.trace (snd (Master.balance (Scenario.client 1 "10.0.0.7")
                                                 Scenario.example))
               = Master.trace Scenario.example
                 ++ [Master.Send 1 "balancing" (Scenario.client 1 "10.0.0.7")])
    by reflexivity.
  assert (Hi : Master.Send 1 "balancing" (Scenario.client 1 "10.0.0.7")
               ∈ [Master.Send 1 "balancing" (Scenario.client 1 "10.0.0.7")])
    by apply list_elem_of_here.
  split; [exact Hs |]. split; [exact Ht |]. split; [exact Hi |].
  exact (proj2 (handoff_reaches_transport
                  (Scenario.client 1 "10.0.0.7") Scenario.example
                  (Worker (Worker.Server 0 0 []) None true true true None [])
                  _ 1%nat "balancing"%string (Scenario.client 1 "10.0.0.7")
                  Hs Ht Hi)).
Defined.

(** X20.  A cluster built by the constructor, started in a process
    without the role marker, for options with a [cluster] part and a
    host with at least one CPU.  When [listen] refuses the transport's
    port, [start] rejects with its RangeError and there is no master
    and no fork.  Otherwise [start] resolves to a master that has
    forked nothing yet: no child, an empty routing list, and the bind
    on the transport's port as its whole trace; the pool comes with the
    ['listening'] callback, and is then non-empty and fully live: the
    routing list has [workers] entries (the CPU count when [workers] is
    absent or 0), none of them dead, the respawn flag is [respawn]
    (true when absent), the policy is the transport's, and nothing has
    been sent or logged. *)
Theorem cluster_start_pool opts c cpus p r listen_error :
  cluster opts = Some c ->
  (1 <= cpus)%nat ->
  has_master_pid (process_env p) = false ->
  if Master.valid_port (Transport.port (transport opts)) then
    exists p' m0 m,
      start (constructor opts cpus) p r listen_error = AsMaster p' m0
      /\ Master.workers m0 = []
      /\ Master.children m0 = ∅
      /\ Master.trace m0 = [Master.Listen (Transport.port (transport opts))]
      /\ Master.on_listening m0 = (inr tt, m)
      /\ length (Master.workers m)
         = match workers c with
           | Some (S n) => S n
           | _ => cpus
           end
      /\ Master.workers m <> []
      /\ Forall (fun x => Master.live m x = true) (Master.workers m)
      /\ Master.needRespawn m
         = match respawn c with
           | Some b => b
           | None => true
           end
      /\ Master.isPermanentConnection m
         = Transport.isPermanentConnection (transport opts)
      /\ Master.trace m = Master.trace m0
  else
    exists p',
      start (constructor opts cpus) p r listen_error
      = Rejected p' (RangeError "ERR_SOCKET_BAD_PORT").
Proof.
  intros Hc Hcpus Hp.
  assert (Hmode : isClusterMode (constructor opts cpus) = true)
    by (unfold constructor; now rewrite Hc).
  assert (Hport : default 0 (port (constructor opts cpus))
                  = Transport.port (transport opts))
    by (unfold constructor; now rewrite Hc).
  destruct (Master.valid_port (Transport.port (transport opts))) eqn:Hv.
  - rewrite <- Hport in Hv.
    destruct (start_master_listening _ p r listen_error Hmode Hp Hv)
      as (m0 & m & Hstart & Hw0 & Hch0 & Htr0 & Hrun & Hws & Hlive & Hr
          & Hperm & Htr).
    rewrite Hport in Htr0.
    exists (snd (isMaster p)), m0, m.
    split; [exact Hstart |]. split; [exact Hw0 |]. split; [exact Hch0 |].
    split; [exact Htr0 |]. split; [exact Hrun |].
    assert (Hcount : default 0%nat (workerCount (constructor opts cpus))
                     = match workers c with
                       | Some (S n) => S n
                       | _ => cpus
                       end).
    { unfold constructor. rewrite Hc. cbn.
      destruct (workers c) as [[| n] |]; reflexivity. }
    assert (Hlen : length (Master.workers m)
                   = match workers c with
                     | Some (S n) => S n
                     | _ => cpus
                     end)
      by now rewrite Hws, length_fmap, length_seq.
    split; [exact Hlen |].
    split.
    { intros Hnil. rewrite Hnil in Hlen. cbn in Hlen.
      destruct (workers c) as [[| n] |]; lia. }
    split; [exact Hlive |].
    split; [rewrite Hr; unfold constructor; rewrite Hc; cbn;
            now destruct (respawn c) |].
    split; [rewrite Hperm; unfold constructor; now rewrite Hc | exact Htr].
  - exists (snd (isMaster p)).
    rewrite (start_as_master _ p r listen_error Hmode Hp), Hport, Hv.
    reflexivity.
Qed.

Lemma cluster_start_pool_witness :
  cluster Demo.options = Some (ClusterOptions (Some 2%nat) (Some false))
  /\ (1 <= 4)%nat
  /\ has_master_pid (process_env Demo.shell) = false
  /\ exists p' m0 m,
       start (constructor Demo.options 4) Demo.shell 5 None = AsMaster p' m0
       /\ Master.workers m0 = []
       /\ Master.trace m0 = [Master.Listen 8080]
       /\ Master.on_listening m0 = (inr tt, m)
       /\ length (Master.workers m) = 2%nat
       /\ Master.needRespawn m = false.
Proof.
  assert (Hc : cluster Demo.options
               = Some (ClusterOptions (Some 2%nat) (Some false)))
    by reflexivity.
  assert (Hn : (1 <= 4)%nat) by lia.
  assert (Hp : has_master_pid (process_env Demo.shell) = false) by reflexivity.
  split; [exact Hc |]. split; [exact Hn |]. split; [exact Hp |].
  destruct (cluster_start_pool Demo.options _ 4 Demo.shell 5 None Hc Hn Hp)
    as (p' & m0 & m & Hstart & Hw0 & _ & Htr0 & Hrun & Hlen & _ & _ & Hr & _).
  exists p', m0, m. repeat split; assumption.
Defined.

(** The same program on port 70000: the promise of [start] rejects and
    nothing is forked. *)
Example start_rejects_bad_port :
  start (constructor
           (Options (Transport.HttpTransport (Some 70000))
                    (Some (ClusterOptions (Some 2%nat) (Some false))) None) 4)
        Demo.shell 5 None
  = Rejected (snd (isMaster Demo.shell)) (RangeError "ERR_SOCKET_BAD_PORT").
Proof. reflexivity. Qed.

(** X21.  With either shipped transport the master balances
    round-robin, never sticky: both report [isPermanentConnection] as
    false, so in a cluster of at least two workers, started on a port
    [listen] accepts, once the ['listening'] callback has spawned the
    pool the first two connections go to the first and the second
    child, also when both come from the same remote address; the bind
    and the two hand-offs are all the master has done by then. *)
Theorem shipped_transports_round_robin tr options_port c n env cpus p r
    listen_error s1 s2 :
  tr = Transport.HttpTransport options_port
  \/ tr = Transport.WsTransport options_port ->
  workers c = Some n ->
  (2 <= n)%nat ->
  has_master_pid (process_env p) = false ->
  Master.valid_port (Transport.port_of options_port) = true ->
  exists p' m0 m,
    start (constructor (Options tr (Some c) env) cpus) p r listen_error
    = AsMaster p' m0
    /\ Master.on_listening m0 = (inr tt, m)
    /\ Master.isPermanentConnection m = false
    /\ Master.trace (snd (Master.serve [s1; s2] m))
       = [Master.Listen (Transport.port_of options_port);
          Master.Send 1 "balancing" s1; Master.Send 2 "balancing" s2].
Proof.
  intros Htr Hn Hn2 Hp Hv.
  set (this := constructor (Options tr (Some c) env) cpus).
  assert (Hmode : isClusterMode this = true) by reflexivity.
  assert (Hport : default 0 (port this) = Transport.port_of options_port)
    by (destruct Htr as [-> | ->]; reflexivity).
  rewrite <- Hport in Hv.
  destruct (start_master_listening this p r listen_error Hmode Hp Hv)
    as (m0 & m & Hstart & _ & _ & Htr0 & Hrun & Hws & Hlive & _
        & Hperm & Htrace).
  rewrite Hport in Htr0.
  exists (snd (isMaster p)), m0, m.
  split; [exact Hstart |]. split; [exact Hrun |].
  assert (Hcount : default 0%nat (workerCount this) = n).
  { unfold this, constructor. cbn. rewrite Hn.
    destruct n; [lia | reflexivity]. }
  assert (Hrr : Master.isPermanentConnection m = false).
  { rewrite Hperm. unfold this, constructor. cbn.
    destruct Htr as [-> | ->]; reflexivity. }
  split; [exact Hrr |].
  rewrite Hcount in Hws.
  assert (Hlen : length (Master.workers m) = n)
    by now rewrite Hws, length_fmap, length_seq.
  destruct n as [| [| n]]; [lia | lia |].
  assert (Hne : Master.workers m <> []) by (rewrite Hws; discriminate).
  destruct (serve_round_robin [s1; s2] m Hrr Hne Hlive)
    as (m' & evs & Hserve & Htr' & Hlen' & Hith).
  rewrite Hserve. cbn [snd]. rewrite Htr', Htrace, Htr0. cbn [app].
  destruct (Hith 0%nat s1 eq_refl) as (w0 & Hw0 & He0).
  destruct (Hith 1%nat s2 eq_refl) as (w1 & Hw1 & He1).
  rewrite Hlen in Hw0, Hw1.
  rewrite Nat.Div0.mod_0_l in Hw0.
  rewrite Nat.mod_small in Hw1 by lia.
  rewrite Hws in Hw0, Hw1. cbn in Hw0, Hw1.
  injection Hw0 as <-. injection Hw1 as <-.
  destruct evs as [| e0 [| e1 [| e2 evs]]]; cbn in Hlen'; try lia.
  cbn in He0, He1. now injection He0 as ->; injection He1 as ->.
Qed.

Lemma shipped_transports_round_robin_witness :
  (Transport.WsTransport (Some 8080) = Transport.HttpTransport (Some 8080)
   \/ Transport.WsTransport (Some 8080) = Transport.WsTransport (Some 8080))
  /\ workers (ClusterOptions (Some 3%nat) None) = Some 3%nat
  /\ (2 <= 3)%nat
  /\ has_master_pid (process_env Demo.shell) = false
  /\ Master.valid_port (Transport.port_of (Some 8080)) = true
  /\ exists p' m0 m,
       start (constructor
                (Options (Transport.WsTransport (Some 8080))
                         (Some (ClusterOptions (Some 3%nat) None)) None) 4)
             Demo.shell 5 None
       = AsMaster p' m0
       /\ Master.on_listening m0 = (inr tt, m)
       /\ Master.trace (snd (Master.serve [Scenario.client 1 "10.0.0.7";
                                           Scenario.client 2 "10.0.0.7"] m))
          = [Master.Listen 8080;
             Master.Send 1 "balancing" (Scenario.client 1 "10.0.0.7");
             Master.Send 2 "balancing" (Scenario.client 2 "10.0.0.7")].
Proof.
  assert (Ht : Transport.WsTransport (Some 8080)
               = Transport.HttpTransport (Some 8080)
               \/ Transport.WsTransport (Some 8080)
                  = Transport.WsTransport (Some 8080)) by (right; reflexivity).
  assert (Hw : workers (ClusterOptions (Some 3%nat) None) = Some 3%nat)
    by reflexivity.
  assert (Hn : (2 <= 3)%nat) by lia.
  assert (Hp : has_master_pid (process_env Demo.shell) = false) by reflexivity.
  assert (Hv : Master.valid_port (Transport.port_of (Some 8080)) = true)
    by reflexivity.
  split; [exact Ht |]. split; [exact Hw |]. split; [exact Hn |].
  split; [exact Hp |]. split; [exact Hv |].
  destruct (shipped_transports_round_robin
              (Transport.WsTransport (Some 8080)) (Some 8080)
              (ClusterOptions (Some 3%nat) None) 3 None 4 Demo.shell 5 None
              (Scenario.client 1 "10.0.0.7") (Scenario.client 2 "10.0.0.7")
              Ht Hw Hn Hp Hv)
    as (p' & m0 & m & Hstart & Hrun & _ & Htrace).
  exists p', m0, m. repeat split; assumption.
Defined.

End ClusterProperties.
